(** * AdmissionAI: the prediction-and-classification pipeline of [app.py]

    A shallow embedding of the deterministic core of the Streamlit
    application: the status/colour classification block, the rule-based
    recommendation list, the radar-chart normaliser, the artifact loader
    behind [st.cache_resource] and [predict_admission].

    Numbers.  Python integers are [Z].  A finite Python float is modelled by
    the exact rational it denotes ([Q]): comparisons of finite floats agree
    with comparisons of their values.  The product of the inference stage is
    rounded to the float format in use ([fl]); the arithmetic of the radar
    chart is read as exact arithmetic.  NaN and the infinities have no
    counterpart here. *)

From Stdlib Require Import ZArith QArith Qround Lqa Lia List String Bool.
From Stdlib Require Import Ascii DecimalString.
Import ListNotations.

Open Scope Q_scope.

(** ** Comparisons on finite floats *)

Module PyFloat.

(** [x < y] on floats. *)
Definition ltb (x y : Q) : bool := negb (Qle_bool y x).

(** [x >= y] on floats. *)
Definition geb (x y : Q) : bool := Qle_bool y x.

End PyFloat.

(** ** Classification stage (the status/colour block of the script) *)

Inductive Category : Type := VeryHigh | High | Medium | Low.

Record Banner : Type := mkBanner {
  category : Category;
  color    : string;
  status   : string;
  emoji    : string
}.

(** The [if]/[elif]/[else] chain on [probability], evaluated high to low. *)
Definition classify (probability : Q) : Banner :=
  if PyFloat.geb probability 80 then
    mkBanner VeryHigh "#28a745" "Muy Alta 🚀" "🎉"
  else if PyFloat.geb probability 60 then
    mkBanner High "#17a2b8" "Alta 📈" "😊"
  else if PyFloat.geb probability 40 then
    mkBanner Medium "#ffc107" "Media ⚠️" "🤔"
  else
    mkBanner Low "#dc3545" "Baja 📉" "😟".

(** ** Recommendation engine *)

Module Advisory.
Definition cgpa_msg : string :=
  "📚 **Enfócate en mejorar tu CGPA:** Es uno de los factores más valorados".
Definition gre_msg : string :=
  "📝 **Prepárate más para el GRE:** Considera cursos de preparación".
Definition toefl_msg : string :=
  "🗣️ **Mejora tu TOEFL:** Practica speaking y writing".
Definition sop_msg : string :=
  "✍️ **Perfecciona tu SOP:** Cuenta una historia convincente".
Definition lor_msg : string :=
  "🤝 **Fortalece tus cartas de recomendación:** Conecta con profesores".
Definition research_msg : string :=
  "🔬 **Busca experiencia en investigación:** Es un diferenciador clave".
Definition backup_msg : string :=
  "🎯 **Considera universidades de respaldo:** Diversifica tu lista".

(** The seven advisories in the order of the rules. *)
Definition all : list string :=
  [cgpa_msg; gre_msg; toefl_msg; sop_msg; lor_msg; research_msg; backup_msg].
End Advisory.

(** [if guard: recommendations.append(msg)] as a step on the list being
    built. *)
Definition append_if (guard : bool) (msg : string) (recommendations : list string)
  : list string :=
  if guard then recommendations ++ [msg] else recommendations.

Definition generate_recommendations
    (gre toefl rating : Z) (sop lor cgpa : Q) (research : Z) (probability : Q)
  : list string :=
  let recommendations := [] in
  let recommendations :=
    append_if (PyFloat.ltb cgpa 8.0) Advisory.cgpa_msg recommendations in
  let recommendations :=
    append_if (gre <? 320)%Z Advisory.gre_msg recommendations in
  let recommendations :=
    append_if (toefl <? 100)%Z Advisory.toefl_msg recommendations in
  let recommendations :=
    append_if (PyFloat.ltb sop 4.0) Advisory.sop_msg recommendations in
  let recommendations :=
    append_if (PyFloat.ltb lor 4.0) Advisory.lor_msg recommendations in
  let recommendations :=
    append_if (research =? 0)%Z Advisory.research_msg recommendations in
  let recommendations :=
    append_if (PyFloat.ltb probability 60) Advisory.backup_msg recommendations in
  recommendations.

(** The rule table as the specification words it: (guard, advisory) pairs in
    the fixed order, each guard evaluated on its own. *)
Definition rule_table
    (gre toefl rating : Z) (sop lor cgpa : Q) (research : Z) (probability : Q)
  : list (bool * string) :=
  [ (PyFloat.ltb cgpa 8.0,        Advisory.cgpa_msg);
    ((gre <? 320)%Z,              Advisory.gre_msg);
    ((toefl <? 100)%Z,            Advisory.toefl_msg);
    (PyFloat.ltb sop 4.0,         Advisory.sop_msg);
    (PyFloat.ltb lor 4.0,         Advisory.lor_msg);
    ((research =? 0)%Z,           Advisory.research_msg);
    (PyFloat.ltb probability 60,  Advisory.backup_msg) ].

(** The advisories whose guards hold, in table order. *)
Definition recommend_spec
    (gre toefl rating : Z) (sop lor cgpa : Q) (research : Z) (probability : Q)
  : list string :=
  map snd (filter fst (rule_table gre toefl rating sop lor cgpa research probability)).

(** ** Profile normaliser (the [values] list of [create_radar_chart]) *)

Definition create_radar_chart_values
    (gre toefl rating : Z) (sop lor cgpa : Q) (research : Z) : list Q :=
  [ inject_Z (gre - 260) / inject_Z (340 - 260) * 100;
    (inject_Z toefl / 120) * 100;
    (inject_Z rating / 5) * 100;
    (sop / 5) * 100;
    (lor / 5) * 100;
    (cgpa - 6.8) / (10 - 6.8) * 100;
    inject_Z (research * 100) ].

(** The ranges of the widgets (the documented domain of a profile). *)
Definition in_documented_ranges
    (gre toefl rating : Z) (sop lor cgpa : Q) (research : Z) : Prop :=
  (260 <= gre <= 340)%Z /\ (0 <= toefl <= 120)%Z /\ (1 <= rating <= 5)%Z /\
  (1 <= sop /\ sop <= 5) /\ (1 <= lor /\ lor <= 5) /\
  (6.8 <= cgpa /\ cgpa <= 10) /\ (research = 0 \/ research = 1)%Z.

Definition within_0_100 (values : list Q) : Prop :=
  Forall (fun v => 0 <= v /\ v <= 100) values.

(** ** Pretrained artifacts

    The model and the scaler are opaque objects restored from disk.  The
    program only calls [scaler.transform] and [model.predict] on them, so
    they are taken as an interface. *)

Class Artifacts : Type := {
  Model  : Type;
  Scaler : Type;
  Blob   : Type;   (* contents of a file *)
  (** [keras.models.load_model(path, compile=False)]; [None] when it raises. *)
  keras_load_model : Blob -> option Model;
  (** [joblib.load(path)]; [None] when it raises. *)
  joblib_load : Blob -> option Scaler;
  (** The column count the scaler was fitted on. *)
  n_features_in_ : Scaler -> nat;
  (** [scaler.transform] on a one-row matrix; [None] when it raises. *)
  transform : Scaler -> list Q -> option (list Q);
  (** [model.predict(scaled, verbose=0)[0][0]]; [None] when it raises. *)
  predict : Model -> list Q -> option Q
}.

(** The float format of the product [prediction[0][0] * 100]: [fl x] is the
    float nearest to [x].  Rounding keeps the order, and the integers up to
    2^24 in absolute value are floats (in binary32 as in binary64). *)
Class FloatFormat : Type := {
  fl : Q -> Q;
  fl_monotone : forall x y : Q, x <= y -> fl x <= fl y;
  fl_integer : forall k : Z, (Z.abs k <= 2 ^ 24)%Z -> fl (inject_Z k) == inject_Z k
}.

(** scikit-learn's input validation: [transform] raises [ValueError] when the
    row does not have the fitted number of columns. *)
Class ScalerContract (A : Artifacts) : Prop :=
  transform_checks_width :
    forall (scaler : Scaler) (row : list Q),
      List.length row <> n_features_in_ scaler -> transform scaler row = None.

(** ** Outcomes, events and the state of a Streamlit process *)

(** Why a run ended early.  [MissingArtifact] and [ArtifactCorrupt] are the
    [st.error(...); st.stop()] exits of [load_model]; [ScalerShapeMismatch] is
    the exception of [scaler.transform] leaving [predict_admission]. *)
Inductive Failure : Type :=
| MissingArtifact (resource : string)
| ArtifactCorrupt
| ScalerShapeMismatch.

(** How a run ends: with a value, with one of the failures above, or with
    the exception of [model.predict] leaving the script. *)
Inductive Outcome (A : Type) : Type :=
| Ok (a : A)
| Halt (f : Failure)
| PredictRaised.
Arguments Ok {A} a.
Arguments Halt {A} f.
Arguments PredictRaised {A}.

(** What a run does to the outside: messages shown and library calls made. *)
Inductive Event : Type :=
| st_error (msg : string)
| st_info (msg : string)
| st_success (msg : string)
| call_load_model (path : string)
| call_joblib_load (path : string)
| call_transform (data : list Q)
| call_predict (scaled : list Q).

Definition model_path : string := "mejor_modelo_admision.h5".
Definition scaler_path : string := "scaler_admision.pkl".

Section Process.
Context {A : Artifacts}.

(** The working directory, the store of [st.cache_resource] for
    [load_model], and the events so far (oldest first). *)
Record World : Type := mkWorld {
  fs    : string -> option Blob;
  cache : option (Model * Scaler);
  trace : list Event
}.

Definition App (T : Type) : Type := World -> Outcome T * World.

Definition ret {T} (x : T) : App T := fun w => (Ok x, w).

Definition bind {T U} (c : App T) (k : T -> App U) : App U :=
  fun w =>
    match c w with
    | (Ok x, w') => k x w'
    | (Halt f, w') => (Halt f, w')
    | (PredictRaised, w') => (PredictRaised, w')
    end.

(** The world after one more event. *)
Definition shown (e : Event) (w : World) : World :=
  mkWorld (fs w) (cache w) (trace w ++ [e]).

Definition emit (e : Event) : App unit := fun w => (Ok tt, shown e w).

(** [st.stop()], and the exception of [scaler.transform]. *)
Definition halt {T} (f : Failure) : App T := fun w => (Halt f, w).

(** The exception of [model.predict]. *)
Definition predict_raised {T} : App T := fun w => (PredictRaised, w).

Definition os_path_exists (path : string) : App bool :=
  fun w => (Ok (match fs w path with Some _ => true | None => false end), w).

Definition read_file (path : string) : App (option Blob) :=
  fun w => (Ok (fs w path), w).

End Process.

Declare Scope app_scope.
Delimit Scope app_scope with app.
Notation "x <- c ;; k" := (bind c (fun x => k))
  (at level 61, c at next level, right associativity) : app_scope.
Notation "c ;;; k" := (bind c (fun _ => k))
  (at level 61, right associativity) : app_scope.

Open Scope app_scope.

(** The seven widget values of a run. *)
Record StudentProfile : Type := mkProfile {
  gre      : Z;
  toefl    : Z;
  rating   : Z;
  sop      : Q;
  lor      : Q;
  cgpa     : Q;
  research : Z
}.

Section Pipeline.
Context {A : Artifacts} {F : FloatFormat}.

(** The body of the [try] block of [load_model]: [None] when either
    deserialisation raises.  ([model.compile], the spinner and [time.sleep]
    do not change what is returned.) *)
Definition deserialize_artifacts : App (option (Model * Scaler)) :=
  emit (call_load_model model_path) ;;;
  model_file <- read_file model_path ;;
  match match model_file with Some b => keras_load_model b | None => None end with
  | None => ret None
  | Some model =>
      emit (call_joblib_load scaler_path) ;;;
      scaler_file <- read_file scaler_path ;;
      match match scaler_file with Some b => joblib_load b | None => None end with
      | None => ret None
      | Some scaler => ret (Some (model, scaler))
      end
  end.

(** [load_model] without its decorator.  The last message is followed in
    the program by the text of the exception, which is not modelled. *)
Definition load_model_body : App (Model * Scaler) :=
  model_found <- os_path_exists model_path ;;
  (if negb model_found then
     emit (st_error "🚫 **Error:** No se encontró el archivo del modelo entrenado") ;;;
     emit (st_info "📋 **Instrucciones:** Asegúrate de que 'mejor_modelo_admision.h5' esté en el directorio") ;;;
     halt (MissingArtifact model_path)
   else ret tt) ;;;
  scaler_found <- os_path_exists scaler_path ;;
  (if negb scaler_found then
     emit (st_error "🚫 **Error:** No se encontró el archivo del escalador") ;;;
     emit (st_info "📋 **Instrucciones:** Asegúrate de que 'scaler_admision.pkl' esté en el directorio") ;;;
     halt (MissingArtifact scaler_path)
   else ret tt) ;;;
  loaded <- deserialize_artifacts ;;
  match loaded with
  | Some artifacts => ret artifacts
  | None =>
      emit (st_error "💥 **Error crítico:** ") ;;;
      halt ArtifactCorrupt
  end.

(** [@st.cache_resource]: a stored value is returned without running the
    body; a value the body returns is stored; nothing is stored when the
    body does not return. *)
Definition cache_resource (body : App (Model * Scaler)) : App (Model * Scaler) :=
  fun w =>
    match cache w with
    | Some artifacts => (Ok artifacts, w)
    | None =>
        match body w with
        | (Ok artifacts, w') =>
            (Ok artifacts, mkWorld (fs w') (Some artifacts) (trace w'))
        | (Halt f, w') => (Halt f, w')
        | (PredictRaised, w') => (PredictRaised, w')
        end
    end.

Definition load_model : App (Model * Scaler) := cache_resource load_model_body.

(** The row of [np.array([[gre, toefl, rating, sop, lor, cgpa, research]])]. *)
Definition feature_row
    (gre toefl rating : Z) (sop lor cgpa : Q) (research : Z) : list Q :=
  [inject_Z gre; inject_Z toefl; inject_Z rating; sop; lor; cgpa; inject_Z research].

Definition scaler_transform (scaler : Scaler) (data : list Q) : App (list Q) :=
  emit (call_transform data) ;;;
  match transform scaler data with
  | Some scaled => ret scaled
  | None => halt ScalerShapeMismatch
  end.

Definition model_predict (model : Model) (scaled : list Q) : App Q :=
  emit (call_predict scaled) ;;;
  match predict model scaled with
  | Some prediction => ret prediction
  | None => predict_raised
  end.

Definition predict_admission
    (gre toefl rating : Z) (sop lor cgpa : Q) (research : Z)
    (model : Model) (scaler : Scaler) : App Q :=
  let data := feature_row gre toefl rating sop lor cgpa research in
  scaled <- scaler_transform scaler data ;;
  prediction <- model_predict model scaled ;;
  let probability := fl (prediction * 100) in
  ret probability.

Definition success_msg : string :=
  "✅ **Modelo cargado correctamente** - Sistema listo para predicciones".

(** The script from [load_model()] to the status block: what one run
    computes before anything is drawn. *)
Definition evaluate (p : StudentProfile) : App (Q * Banner) :=
  artifacts <- load_model ;;
  let '(model, scaler) := artifacts in
  emit (st_success success_msg) ;;;
  probability <- predict_admission (gre p) (toefl p) (rating p) (sop p) (lor p)
                   (cgpa p) (research p) model scaler ;;
  ret (probability, classify probability).

(** The result of a run is a function of the artifacts the loader hands
    out. *)
Definition estimate (p : StudentProfile) (loaded : Outcome (Model * Scaler))
  : Outcome (Q * Banner) :=
  match loaded with
  | Ok (model, scaler) =>
      match transform scaler (feature_row (gre p) (toefl p) (rating p) (sop p)
                                (lor p) (cgpa p) (research p)) with
      | Some scaled =>
          match predict model scaled with
          | Some prediction =>
              Ok (fl (prediction * 100), classify (fl (prediction * 100)))
          | None => PredictRaised
          end
      | None => Halt ScalerShapeMismatch
      end
  | Halt f => Halt f
  | PredictRaised => PredictRaised
  end.

End Pipeline.

(** ** A concrete artifact pair

    A standardising scaler and a linear model, used to run the pipeline on
    concrete inputs. *)

Module Sample.

Record StandardScaler : Type := mkScaler {
  mean_  : list Q;
  scale_ : list Q
}.

Record LinearModel : Type := mkModel {
  weights : list Q;
  bias    : Q
}.

Inductive File : Type :=
| H5 (m : LinearModel)
| Pkl (s : StandardScaler)
| Junk.

Fixpoint standardize (row mean scale : list Q) : list Q :=
  match row, mean, scale with
  | x :: row', m :: mean', s :: scale' => (x - m) / s :: standardize row' mean' scale'
  | _, _, _ => []
  end.

Fixpoint dot (ws xs : list Q) : Q :=
  match ws, xs with
  | w :: ws', x :: xs' => w * x + dot ws' xs'
  | _, _ => 0
  end.

Definition width (s : StandardScaler) : nat := List.length (mean_ s).

Definition scaler_transform (s : StandardScaler) (row : list Q) : option (list Q) :=
  if Nat.eqb (List.length row) (width s)
  then Some (standardize row (mean_ s) (scale_ s))
  else None.

#[global] Instance artifacts : Artifacts := {|
  Model := LinearModel;
  Scaler := StandardScaler;
  Blob := File;
  keras_load_model := fun b => match b with H5 m => Some m | _ => None end;
  joblib_load := fun b => match b with Pkl s => Some s | _ => None end;
  n_features_in_ := width;
  transform := scaler_transform;
  predict := fun m x =>
    if Nat.eqb (List.length x) (List.length (weights m))
    then Some (Qred (bias m + dot (weights m) x))
    else None
|}.

(** A format for the examples: rounding to the nearest multiple of 2^-20. *)
Definition nearest_2_20 (x : Q) : Q :=
  inject_Z (Qfloor (x * 1048576 + (1 # 2))) / 1048576.

(** A scaler fitted on seven columns and one fitted on six. *)
Definition scaler7 : Scaler :=
  mkScaler [300; 100; 3; 3; 3; 8; 0] [40; 20; 2; 2; 2; 2; 1].
Definition scaler6 : Scaler :=
  mkScaler [300; 100; 3; 3; 3; 8] [40; 20; 2; 2; 2; 2].

(** Three models: one whose output stays in [0,1] on usual profiles, one
    that always answers 3/2 and one that always answers -1/4. *)
Definition model : Model :=
  mkModel [1 # 10; 1 # 10; 1 # 20; 1 # 20; 1 # 20; 1 # 5; 1 # 20] (1 # 2).
Definition model_above : Model := mkModel [0; 0; 0; 0; 0; 0; 0] (3 # 2).
Definition model_below : Model := mkModel [0; 0; 0; 0; 0; 0; 0] (- (1 # 4)).

Definition disk (m s : option Blob) : string -> option Blob :=
  fun path =>
    if String.eqb path model_path then m
    else if String.eqb path scaler_path then s
    else None.

Definition fresh (m s : option Blob) : World := mkWorld (disk m s) None [].

Definition profile : StudentProfile := mkProfile 320 110 3 4.0 4.0 8.5 1.

End Sample.

(** ** An artifact pair whose scaler does not validate its input

    [joblib.load] returns whatever object was pickled; nothing in the
    program requires its [transform] to compare the width of the row with
    the fitted one.  This scaler standardises the columns it knows and drops
    the rest. *)

Module Lenient.

Definition artifacts : Artifacts := {|
  Model := Sample.LinearModel;
  Scaler := Sample.StandardScaler;
  Blob := Sample.File;
  keras_load_model := fun b => match b with Sample.H5 m => Some m | _ => None end;
  joblib_load := fun b => match b with Sample.Pkl s => Some s | _ => None end;
  n_features_in_ := Sample.width;
  transform := fun s row =>
    Some (Sample.standardize row (Sample.mean_ s) (Sample.scale_ s));
  predict := fun m x =>
    Some (Qred (Sample.bias m + Sample.dot (Sample.weights m) x))
|}.

Definition scaler : @Scaler artifacts :=
  Sample.mkScaler [300; 100; 3; 3; 3; 8] [40; 20; 2; 2; 2; 2].

Definition model : @Model artifacts :=
  Sample.mkModel [1 # 10; 1 # 10; 1 # 20; 1 # 20; 1 # 20; 1 # 5] (1 # 2).

Definition fresh : @World artifacts :=
  @mkWorld artifacts
    (Sample.disk (Some (Sample.H5 model)) (Some (Sample.Pkl scaler))) None [].

End Lenient.

(** ** The rest of the script: progress bar, gauge, tips and metrics *)

(** [int(x)] on a float: the integer part, towards zero. *)
Definition py_int (x : Q) : Z := Z.quot (Qnum x) (Z.pos (Qden x)).

(** [range(n)]. *)
Definition py_range (n : Z) : list Z := map Z.of_nat (seq 0 (Z.to_nat n)).

(** [st.progress] takes a float between 0.0 and 1.0 and raises on any
    other. *)
Definition progress_accepts (value : Q) : bool :=
  Qle_bool 0 value && Qle_bool value 1.

(** Calling [progress_bar.progress] on the values in turn: the updates made,
    and whether a call raised (which ends the loop and the script). *)
Fixpoint progress_updates (values : list Q) : list Q * bool :=
  match values with
  | [] => ([], false)
  | value :: rest =>
      if progress_accepts value then
        let (made, raised) := progress_updates rest in (value :: made, raised)
      else ([], true)
  end.

(** [for i in range(int(probability) + 1): progress_bar.progress(i / 100)],
    for a percentage that is a finite number. *)
Definition progress_loop (probability : Q) : list Q * bool :=
  progress_updates
    (map (fun i => inject_Z i / 100) (py_range (py_int probability + 1))).

Record GaugeStep : Type := mkStep {
  step_lo    : Q;
  step_hi    : Q;
  step_color : string
}.

(** The fields of the indicator built by [create_gauge_chart] that depend on
    numbers: value, delta reference, axis maximum, steps and threshold. *)
Record Gauge : Type := mkGauge {
  gauge_value     : Q;
  gauge_reference : Q;
  gauge_axis_max  : Q;
  gauge_steps     : list GaugeStep;
  gauge_threshold : Q
}.

Definition create_gauge_chart (probability : Q) : Gauge :=
  mkGauge probability 50 100
    [ mkStep 0 40 "rgba(220, 53, 69, 0.3)";
      mkStep 40 60 "rgba(255, 193, 7, 0.3)";
      mkStep 60 80 "rgba(40, 167, 69, 0.3)";
      mkStep 80 100 "rgba(23, 162, 184, 0.3)" ]
    90.

(** [x] lies in the step, upper end excluded. *)
Definition in_step (s : GaugeStep) (x : Q) : Prop := step_lo s <= x /\ x < step_hi s.

(** [str(n)] and [format(n, '+d')] on integers. *)
Definition py_digits (n : Z) : string := NilZero.string_of_uint (N.to_uint (Z.abs_N n)).
Definition py_str (n : Z) : string :=
  ((if (n <? 0)%Z then "-" else "") ++ py_digits n)%string.
Definition format_plus_d (n : Z) : string :=
  ((if (n <? 0)%Z then "-" else "+") ++ py_digits n)%string.

(** [enumerate(l, start)]. *)
Fixpoint enumerate {T : Type} (start : Z) (l : list T) : list (Z * T) :=
  match l with
  | [] => []
  | x :: l' => (start, x) :: enumerate (start + 1) l'
  end.

Definition dquote : string := String (ascii_of_nat 34) EmptyString.

(** The [st.markdown] calls of the tips block, in order: nothing for an
    empty list, else the opening tag, the title, one numbered line per
    advisory and the closing tag. *)
Definition show_recommendations (recommendations : list string) : list string :=
  match recommendations with
  | [] => []
  | _ :: _ =>
      [ ("<div class=" ++ dquote ++ "tips-container" ++ dquote ++ ">")%string;
        "### 🎯 Recomendaciones Personalizadas"%string ]
      ++ map (fun '(i, rec) => (py_str i ++ ". " ++ rec)%string)
           (enumerate 1 recommendations)
      ++ [ "</div>"%string ]
  end.

(** [st.metric(label, value, delta)]. *)
Record Metric : Type := mkMetric {
  metric_label : string;
  metric_value : string;
  metric_delta : string
}.

Definition gre_metric (gre : Z) : Metric :=
  mkMetric "Puntaje GRE" (py_str gre ++ "/340")%string
    (format_plus_d (gre - 320) ++ " vs promedio")%string.

Definition toefl_metric (toefl : Z) : Metric :=
  mkMetric "Puntaje TOEFL" (py_str toefl ++ "/120")%string
    (format_plus_d (toefl - 100) ++ " vs mínimo")%string.

(** The number behind the delta of the CGPA metric, before it is formatted. *)
Definition cgpa_delta (cgpa : Q) : Q := cgpa - 8.0.

(** The delta text of the fourth metric; [probability > c] is [c < probability]. *)
Definition strength_label (probability : Q) : string :=
  if PyFloat.ltb 80 probability then "Excelente"
  else if PyFloat.ltb 60 probability then "Buena"
  else "Regular".

(** Events of the scaler and of the model. *)
Definition is_inference (e : Event) : bool :=
  match e with
  | call_transform _ | call_predict _ => true
  | _ => false
  end.

(** ** Reruns

    Streamlit runs the script again at every interaction, in the same
    process: the store of [st.cache_resource] and the events persist, the
    directory is whatever it is at that moment. *)

Section Reruns.
Context {A : Artifacts} {F : FloatFormat}.

Definition rerun (dir : string -> option Blob) (p : StudentProfile) : App (Q * Banner) :=
  fun w => evaluate p (mkWorld dir (cache w) (trace w)).

Fixpoint session (runs : list ((string -> option Blob) * StudentProfile)) (w : World)
  : list (Outcome (Q * Banner)) * World :=
  match runs with
  | [] => ([], w)
  | (dir, p) :: runs' =>
      let (o, w1) := rerun dir p w in
      let (os, w2) := session runs' w1 in
      (o :: os, w2)
  end.

(** Events of the two deserialisers. *)
Definition is_deserialisation (e : Event) : bool :=
  match e with
  | call_load_model _ | call_joblib_load _ => true
  | _ => false
  end.

End Reruns.

(** * Properties *)

(** ** Float comparisons decide the order on values *)

Lemma ltb_lt (x y : Q) : PyFloat.ltb x y = true <-> x < y.
Proof.
  unfold PyFloat.ltb. rewrite negb_true_iff, <- not_true_iff_false, Qle_bool_iff.
  split; [apply Qnot_le_lt | apply Qlt_not_le].
Qed.

Lemma geb_le (x y : Q) : PyFloat.geb x y = true <-> y <= x.
Proof. apply Qle_bool_iff. Qed.

Lemma geb_reflect (x y : Q) : reflect (y <= x) (PyFloat.geb x y).
Proof. apply iff_reflect. symmetry. apply geb_le. Qed.

(** ** Classification *)

Lemma classify_category (p : Q) :
  (category (classify p) = VeryHigh <-> 80 <= p) /\
  (category (classify p) = High <-> 60 <= p /\ p < 80) /\
  (category (classify p) = Medium <-> 40 <= p /\ p < 60) /\
  (category (classify p) = Low <-> p < 40).
Proof.
  unfold classify.
  destruct (geb_reflect p 80) as [H80 | H80];
    [ | destruct (geb_reflect p 60) as [H60 | H60];
        [ | destruct (geb_reflect p 40) as [H40 | H40] ] ];
    cbn [category];
    repeat split; try reflexivity; try discriminate; intros; try lra;
    try (destruct H; lra).
Qed.

(** C1. Every percentage gets one category, tested from the top band down
    with closed lower bounds: VeryHigh exactly when p >= 80, High exactly when
    60 <= p < 80, Medium exactly when 40 <= p < 60, Low exactly when p < 40;
    the boundary values 40, 60 and 80 fall in the higher band. *)
Theorem classify_bands (p : Q) :
  (category (classify p) = VeryHigh <-> 80 <= p) /\
  (category (classify p) = High <-> 60 <= p /\ p < 80) /\
  (category (classify p) = Medium <-> 40 <= p /\ p < 60) /\
  (category (classify p) = Low <-> p < 40) /\
  category (classify 40) = Medium /\
  category (classify 60) = High /\
  category (classify 80) = VeryHigh.
Proof.
  destruct (classify_category p) as (Hv & Hh & Hm & Hl).
  split; [exact Hv | split; [exact Hh | split; [exact Hm | split; [exact Hl | ]]]].
  repeat split.
Qed.

Example classify_scenario_3 :
  category (classify 39.999) = Low /\ category (classify 40.0) = Medium /\
  category (classify 79.999) = High /\ category (classify 80.0) = VeryHigh.
Proof. repeat split. Qed.

(** ** Recommendations *)

(** An advisory is selected from a table exactly when the table pairs it
    with a guard that holds. *)
Lemma in_selected (table : list (bool * string)) (msg : string) :
  In msg (map snd (filter fst table)) <-> In (true, msg) table.
Proof.
  induction table as [| [g m] table IH]; cbn [filter map In fst snd]; [tauto |].
  destruct g; cbn [map In snd]; rewrite IH; split.
  - intros [-> | H]; auto.
  - intros [H | H]; [injection H as ->; auto | auto].
  - auto.
  - intros [H | H]; [discriminate | auto].
Qed.

(** The appends of the function select from the rule table. *)
Lemma generate_recommendations_table
    (gre toefl rating : Z) (sop lor cgpa : Q) (research : Z) (probability : Q) :
  generate_recommendations gre toefl rating sop lor cgpa research probability
  = recommend_spec gre toefl rating sop lor cgpa research probability.
Proof.
  unfold generate_recommendations, recommend_spec, rule_table, append_if.
  destruct (PyFloat.ltb cgpa 8.0), (gre <? 320)%Z, (toefl <? 100)%Z,
    (PyFloat.ltb sop 4.0), (PyFloat.ltb lor 4.0), (research =? 0)%Z,
    (PyFloat.ltb probability 60); reflexivity.
Qed.

(** Membership of one advisory in the result, through the table. *)
Lemma in_recommendations_iff
    (gre toefl rating : Z) (sop lor cgpa : Q) (research : Z) (probability : Q)
    (msg : string) :
  In msg (generate_recommendations gre toefl rating sop lor cgpa research probability)
  <-> In (true, msg) (rule_table gre toefl rating sop lor cgpa research probability).
Proof. rewrite generate_recommendations_table. apply in_selected. Qed.

Ltac other_advisory H :=
  exfalso;
  apply (f_equal snd) in H; cbn [snd] in H;
  apply String.eqb_eq in H; vm_compute in H; discriminate H.

(** C2. The result is the rule table filtered by its guards, in table order:
    each advisory is present exactly when its own guard holds (cgpa < 8.0,
    gre < 320, toefl < 100, sop < 4.0, lor < 4.0, research == 0,
    percentage < 60), the order is that of the seven rules whatever subset
    fires, and the list is empty exactly when no guard holds. *)
Theorem generate_recommendations_exact
    (gre toefl rating : Z) (sop lor cgpa : Q) (research : Z) (probability : Q) :
  let result :=
    generate_recommendations gre toefl rating sop lor cgpa research probability in
  result = recommend_spec gre toefl rating sop lor cgpa research probability /\
  (In Advisory.cgpa_msg result <-> cgpa < 8) /\
  (In Advisory.gre_msg result <-> (gre < 320)%Z) /\
  (In Advisory.toefl_msg result <-> (toefl < 100)%Z) /\
  (In Advisory.sop_msg result <-> sop < 4) /\
  (In Advisory.lor_msg result <-> lor < 4) /\
  (In Advisory.research_msg result <-> research = 0%Z) /\
  (In Advisory.backup_msg result <-> probability < 60) /\
  (forall msg, In msg result -> In msg Advisory.all) /\
  (result = [] <->
     ~ cgpa < 8 /\ ~ (gre < 320)%Z /\ ~ (toefl < 100)%Z /\ ~ sop < 4 /\
     ~ lor < 4 /\ research <> 0%Z /\ ~ probability < 60).
Proof.
  intros result.
  assert (Hc : PyFloat.ltb cgpa 8.0 = true <-> cgpa < 8)
    by (rewrite ltb_lt; split; intros; lra).
  assert (Hs : PyFloat.ltb sop 4.0 = true <-> sop < 4)
    by (rewrite ltb_lt; split; intros; lra).
  assert (Hl : PyFloat.ltb lor 4.0 = true <-> lor < 4)
    by (rewrite ltb_lt; split; intros; lra).
  assert (Hp : PyFloat.ltb probability 60 = true <-> probability < 60)
    by apply ltb_lt.
  assert (Hg := Z.ltb_lt gre 320). assert (Ht := Z.ltb_lt toefl 100).
  assert (Hr := Z.eqb_eq research 0).
  split; [apply generate_recommendations_table |].
  repeat match goal with
  | |- (In ?m result <-> _) /\ _ =>
      split;
      [ unfold result; rewrite in_recommendations_iff; unfold rule_table;
        cbn [In];
        split;
        [ intros H;
          repeat (destruct H as [H | H];
                  [ first [ injection H as H; tauto | other_advisory H ] | ]);
          contradiction
        | intros H;
          first [ apply Hc in H | apply Hg in H | apply Ht in H | apply Hs in H
                | apply Hl in H | apply Hr in H | apply Hp in H ];
          rewrite H; repeat first [ left; reflexivity | right ] ]
      | ]
  end.
  split.
  - intros msg. unfold result. rewrite in_recommendations_iff.
    unfold rule_table, Advisory.all. cbn [In].
    intros H.
    repeat (destruct H as [H | H]; [apply (f_equal snd) in H; cbn [snd] in H; tauto |]).
    contradiction.
  - unfold result. rewrite generate_recommendations_table.
    unfold recommend_spec, rule_table.
    rewrite <- Hc, <- Hs, <- Hl, <- Hp, <- Hg, <- Ht, <- Hr.
    destruct (PyFloat.ltb cgpa 8.0), (gre <? 320)%Z, (toefl <? 100)%Z,
      (PyFloat.ltb sop 4.0), (PyFloat.ltb lor 4.0), (research =? 0)%Z,
      (PyFloat.ltb probability 60); cbn [filter map fst snd];
      split; intros H; try discriminate; try reflexivity; intuition congruence.
Qed.

Example recommendations_scenario_1 :
  generate_recommendations 320 110 3 4.0 4.0 8.5 1 75 = [] /\
  generate_recommendations 320 110 3 4.0 4.0 8.5 1 59.9 = [Advisory.backup_msg].
Proof. split; reflexivity. Qed.

Example recommendations_scenario_2 :
  generate_recommendations 300 90 2 3.0 3.0 7.5 0 70
  = [Advisory.cgpa_msg; Advisory.gre_msg; Advisory.toefl_msg; Advisory.sop_msg;
     Advisory.lor_msg; Advisory.research_msg] /\
  generate_recommendations 300 90 2 3.0 3.0 7.5 0 35 = Advisory.all.
Proof. split; reflexivity. Qed.

(** C9. The rating takes no part in the recommendations: two calls that
    differ only in the rating return the same list. *)
Theorem recommendations_ignore_rating
    (gre toefl rating rating' : Z) (sop lor cgpa : Q) (research : Z)
    (probability : Q) :
  generate_recommendations gre toefl rating sop lor cgpa research probability
  = generate_recommendations gre toefl rating' sop lor cgpa research probability.
Proof. reflexivity. Qed.

(** ** Normaliser *)

(** A linear rescaling onto 0..100 keeps exactly its own range inside. *)
Lemma rescale_within (x lo hi : Q) :
  lo < hi ->
  (0 <= (x - lo) / (hi - lo) * 100 /\ (x - lo) / (hi - lo) * 100 <= 100)
  <-> (lo <= x /\ x <= hi).
Proof.
  intros Hlt.
  assert (Hpos : 0 < hi - lo) by lra.
  assert (Hinv : 0 < / (hi - lo)) by (apply Qinv_lt_0_compat; exact Hpos).
  assert (Hone : (hi - lo) * / (hi - lo) == 1) by (apply Qmult_inv_r; lra).
  unfold Qdiv.
  set (k := / (hi - lo)) in *.
  split.
  - intros [H0 H1]. split.
    + assert (0 <= (x - lo) * k) by lra.
      destruct (Qlt_le_dec x lo) as [Hx | Hx]; [ | exact Hx].
      exfalso. assert ((x - lo) * k < 0); [ | lra].
      setoid_replace ((x - lo) * k) with (- ((lo - x) * k)) by ring.
      assert (0 < (lo - x) * k) by (apply Qmult_lt_0_compat; lra). lra.
    + destruct (Qlt_le_dec hi x) as [Hx | Hx]; [ | exact Hx].
      exfalso.
      assert (0 < (x - hi) * k) by (apply Qmult_lt_0_compat; lra).
      assert ((x - lo) * k == (x - hi) * k + 1)
        by (rewrite <- Hone; ring).
      lra.
  - intros [H0 H1].
    assert (0 <= (x - lo) * k) by (apply Qmult_le_0_compat; lra).
    assert (0 <= (hi - x) * k) by (apply Qmult_le_0_compat; lra).
    assert ((x - lo) * k == 1 - (hi - x) * k) by (rewrite <- Hone; ring).
    lra.
Qed.

Lemma fraction_within (x hi : Q) :
  0 < hi ->
  (0 <= x / hi * 100 /\ x / hi * 100 <= 100) <-> (0 <= x /\ x <= hi).
Proof.
  intros Hhi. rewrite <- (rescale_within x 0 hi Hhi).
  assert (E : (x - 0) / (hi - 0) == x / hi) by (field; lra).
  rewrite E. reflexivity.
Qed.

Lemma inject_Z_between (lo x hi : Z) :
  (inject_Z lo <= inject_Z x /\ inject_Z x <= inject_Z hi) <-> (lo <= x <= hi)%Z.
Proof. rewrite <- !Zle_Qle. reflexivity. Qed.

Lemma Z_fraction_within (x hi : Z) :
  (0 < hi)%Z ->
  (0 <= inject_Z x / inject_Z hi * 100 /\ inject_Z x / inject_Z hi * 100 <= 100)
  <-> (0 <= x <= hi)%Z.
Proof.
  intros Hhi. rewrite fraction_within.
  - change 0 with (inject_Z 0). apply inject_Z_between.
  - change 0 with (inject_Z 0). rewrite <- Zlt_Qlt. exact Hhi.
Qed.

Lemma inject_Z_sub (a b : Z) : inject_Z (a - b) = inject_Z a - inject_Z b.
Proof. unfold Z.sub. rewrite inject_Z_plus, inject_Z_opp. reflexivity. Qed.

Lemma Z_rescale_within (x lo hi : Z) :
  (lo < hi)%Z ->
  (0 <= inject_Z (x - lo) / inject_Z (hi - lo) * 100
   /\ inject_Z (x - lo) / inject_Z (hi - lo) * 100 <= 100)
  <-> (lo <= x <= hi)%Z.
Proof.
  intros Hlt. rewrite !inject_Z_sub, rescale_within.
  - apply inject_Z_between.
  - rewrite <- Zlt_Qlt. exact Hlt.
Qed.

(** Component by component: inside 0..100 exactly when the input is inside
    the pair its formula rescales from. *)
Lemma radar_components
    (gre toefl rating : Z) (sop lor cgpa : Q) (research : Z) :
  let v := create_radar_chart_values gre toefl rating sop lor cgpa research in
  (0 <= nth 0 v 0 <= 100 <-> (260 <= gre <= 340)%Z) /\
  (0 <= nth 1 v 0 <= 100 <-> (0 <= toefl <= 120)%Z) /\
  (0 <= nth 2 v 0 <= 100 <-> (0 <= rating <= 5)%Z) /\
  (0 <= nth 3 v 0 <= 100 <-> 0 <= sop <= 5) /\
  (0 <= nth 4 v 0 <= 100 <-> 0 <= lor <= 5) /\
  (0 <= nth 5 v 0 <= 100 <-> 6.8 <= cgpa <= 10) /\
  (0 <= nth 6 v 0 <= 100 <-> (research = 0 \/ research = 1)%Z).
Proof.
  cbn [create_radar_chart_values nth].
  split; [apply (Z_rescale_within gre 260 340); lia | ].
  split; [apply (Z_fraction_within toefl 120); lia | ].
  split; [apply (Z_fraction_within rating 5); lia | ].
  split; [apply (fraction_within sop 5); lra | ].
  split; [apply (fraction_within lor 5); lra | ].
  split; [apply (rescale_within cgpa 6.8 10); lra | ].
  change 0 with (inject_Z 0). change 100 with (inject_Z 100).
  rewrite inject_Z_between. lia.
Qed.



(** C10. With rating, SOP and LOR in 1..5 their components are value/5*100:
    they lie in 20..100 and are never 0; the documented minimum 1 is drawn
    at 20. *)
Theorem radar_quality_floor
    (gre toefl rating : Z) (sop lor cgpa : Q) (research : Z) :
  (1 <= rating <= 5)%Z -> 1 <= sop <= 5 -> 1 <= lor <= 5 ->
  let v := create_radar_chart_values gre toefl rating sop lor cgpa research in
  (nth 2 v 0 == inject_Z rating / 5 * 100 /\ 20 <= nth 2 v 0 <= 100 /\ ~ nth 2 v 0 == 0) /\
  (nth 3 v 0 == sop / 5 * 100 /\ 20 <= nth 3 v 0 <= 100 /\ ~ nth 3 v 0 == 0) /\
  (nth 4 v 0 == lor / 5 * 100 /\ 20 <= nth 4 v 0 <= 100 /\ ~ nth 4 v 0 == 0) /\
  nth 2 (create_radar_chart_values gre toefl 1 1 1 cgpa research) 0 == 20 /\
  nth 3 (create_radar_chart_values gre toefl 1 1 1 cgpa research) 0 == 20 /\
  nth 4 (create_radar_chart_values gre toefl 1 1 1 cgpa research) 0 == 20.
Proof.
  intros Hr Hs Hl v. cbn [v create_radar_chart_values nth].
  assert (Hr' : 1 <= inject_Z rating <= 5).
  { change 1 with (inject_Z 1). change 5 with (inject_Z 5).
    rewrite inject_Z_between. exact Hr. }
  assert (E : forall x, x / 5 * 100 == x * 20) by (intros x; field).
  rewrite !E.
  repeat split; try reflexivity; try lra.
  all: intros H0; lra.
Qed.

Lemma radar_quality_floor_witness :
  let v := create_radar_chart_values 320 110 3 4.0 4.0 8.5 1 in
  (nth 2 v 0 == inject_Z 3 / 5 * 100 /\ 20 <= nth 2 v 0 <= 100 /\ ~ nth 2 v 0 == 0) /\
  (nth 3 v 0 == 4.0 / 5 * 100 /\ 20 <= nth 3 v 0 <= 100 /\ ~ nth 3 v 0 == 0) /\
  (nth 4 v 0 == 4.0 / 5 * 100 /\ 20 <= nth 4 v 0 <= 100 /\ ~ nth 4 v 0 == 0) /\
  nth 2 (create_radar_chart_values 320 110 1 1 1 8.5 1) 0 == 20 /\
  nth 3 (create_radar_chart_values 320 110 1 1 1 8.5 1) 0 == 20 /\
  nth 4 (create_radar_chart_values 320 110 1 1 1 8.5 1) 0 == 20.
Proof.
  apply (radar_quality_floor 320 110 3 4.0 4.0 8.5 1).
  - lia.
  - split; vm_compute; discriminate.
  - split; vm_compute; discriminate.
Defined.

(** ** The loader and its cache *)

(** Unfold one run of the monadic code down to the state it threads. *)
Ltac run :=
  unfold load_model, cache_resource, load_model_body, deserialize_artifacts,
    predict_admission, scaler_transform, model_predict,
    os_path_exists, read_file, emit, shown, halt, predict_raised, bind, ret;
  cbn [fs cache trace negb fst snd].

Section PipelineFacts.
Context {A : Artifacts} {F : FloatFormat}.

Lemma load_model_cached (w : World) (artifacts : Model * Scaler) :
  cache w = Some artifacts -> load_model w = (Ok artifacts, w).
Proof. intros H. unfold load_model, cache_resource. rewrite H. reflexivity. Qed.

(** The loader never writes to the directory, and the cache only goes from
    empty to filled. *)
Lemma load_model_body_frame (w : World) :
  fs (snd (load_model_body w)) = fs w /\
  cache (snd (load_model_body w)) = cache w.
Proof.
  run.
  destruct (fs w model_path) as [mb |] eqn:Hm; cbn; [ | auto].
  destruct (fs w scaler_path) as [sb |] eqn:Hs; cbn; [ | auto].
  rewrite Hm. destruct (keras_load_model mb); cbn; [ | auto].
  rewrite Hs. destruct (joblib_load sb); cbn; auto.
Qed.

Lemma load_model_body_missing_model (w : World) :
  fs w model_path = None ->
  exists m1 m2,
    load_model_body w
    = (Halt (MissingArtifact model_path),
       mkWorld (fs w) (cache w) (trace w ++ [st_error m1; st_info m2])).
Proof.
  intros H. run. rewrite H. cbn. rewrite <- app_assoc.
  eexists _, _. reflexivity.
Qed.

Lemma load_model_body_missing_scaler (w : World) (mb : Blob) :
  fs w model_path = Some mb ->
  fs w scaler_path = None ->
  exists m1 m2,
    load_model_body w
    = (Halt (MissingArtifact scaler_path),
       mkWorld (fs w) (cache w) (trace w ++ [st_error m1; st_info m2])).
Proof.
  intros Hm Hs. run. rewrite Hm. cbn. rewrite Hs. cbn. rewrite <- app_assoc.
  eexists _, _. reflexivity.
Qed.

Lemma load_model_body_ok (w : World) (mb sb : Blob) (model : Model) (scaler : Scaler) :
  fs w model_path = Some mb -> keras_load_model mb = Some model ->
  fs w scaler_path = Some sb -> joblib_load sb = Some scaler ->
  load_model_body w
  = (Ok (model, scaler),
     mkWorld (fs w) (cache w)
       (trace w ++ [call_load_model model_path; call_joblib_load scaler_path])).
Proof.
  intros Hm Hk Hs Hj. run. rewrite Hm. cbn. rewrite Hs. cbn. rewrite Hm, Hk. cbn.
  rewrite Hs, Hj. cbn. rewrite <- app_assoc. reflexivity.
Qed.

Lemma load_model_body_returns (w : World) : fst (load_model_body w) <> PredictRaised.
Proof.
  run.
  destruct (fs w model_path) as [mb |] eqn:Hm; cbn; [ | discriminate].
  destruct (fs w scaler_path) as [sb |] eqn:Hs; cbn; [ | discriminate].
  rewrite Hm. destruct (keras_load_model mb); cbn; [ | discriminate].
  rewrite Hs. destruct (joblib_load sb); cbn; discriminate.
Qed.

Lemma load_model_returns (w : World) : fst (load_model w) <> PredictRaised.
Proof.
  unfold load_model, cache_resource.
  destruct (cache w) as [c |]; [discriminate | ].
  assert (H := load_model_body_returns w).
  destruct (load_model_body w) as [[a | f | ] w']; cbn [fst] in *;
    [discriminate | discriminate | exact H].
Qed.

Lemma load_model_ok_inv (w w1 : World) (artifacts : Model * Scaler) :
  load_model w = (Ok artifacts, w1) ->
  cache w1 = Some artifacts /\ fs w1 = fs w.
Proof.
  unfold load_model, cache_resource.
  destruct (cache w) as [c |] eqn:Hc.
  - intros H. injection H as <- <-. auto.
  - destruct (load_model_body_frame w) as [Hfs _].
    destruct (load_model_body w) as [[a | f | ] w']; intros H; try discriminate.
    injection H as <- <-. cbn in *. auto.
Qed.

Lemma load_model_halt_inv (w w1 : World) (f : Failure) :
  load_model w = (Halt f, w1) ->
  cache w = None /\ cache w1 = None /\ fs w1 = fs w /\ load_model_body w = (Halt f, w1).
Proof.
  unfold load_model, cache_resource.
  destruct (cache w) as [c |] eqn:Hc; [discriminate | ].
  destruct (load_model_body_frame w) as [Hfs Hca].
  destruct (load_model_body w) as [[a | f' | ] w']; intros H; try discriminate.
  injection H as <- <-. cbn in *. rewrite Hc in Hca. auto.
Qed.

(** ** Inference *)

Lemma predict_admission_ok
    (gre toefl rating : Z) (sop lor cgpa : Q) (research : Z)
    (model : Model) (scaler : Scaler) (scaled : list Q) (raw : Q) (w : World) :
  transform scaler (feature_row gre toefl rating sop lor cgpa research) = Some scaled ->
  predict model scaled = Some raw ->
  predict_admission gre toefl rating sop lor cgpa research model scaler w
  = (Ok (fl (raw * 100)),
     mkWorld (fs w) (cache w)
       (trace w ++ [call_transform (feature_row gre toefl rating sop lor cgpa research);
                    call_predict scaled])).
Proof. intros H Hp. run. rewrite H. cbn. rewrite Hp. cbn. rewrite <- app_assoc. reflexivity. Qed.

Lemma predict_admission_predict_raises
    (gre toefl rating : Z) (sop lor cgpa : Q) (research : Z)
    (model : Model) (scaler : Scaler) (scaled : list Q) (w : World) :
  transform scaler (feature_row gre toefl rating sop lor cgpa research) = Some scaled ->
  predict model scaled = None ->
  predict_admission gre toefl rating sop lor cgpa research model scaler w
  = (PredictRaised,
     mkWorld (fs w) (cache w)
       (trace w ++ [call_transform (feature_row gre toefl rating sop lor cgpa research);
                    call_predict scaled])).
Proof. intros H Hp. run. rewrite H. cbn. rewrite Hp. cbn. rewrite <- app_assoc. reflexivity. Qed.

Lemma predict_admission_raises
    (gre toefl rating : Z) (sop lor cgpa : Q) (research : Z)
    (model : Model) (scaler : Scaler) (w : World) :
  transform scaler (feature_row gre toefl rating sop lor cgpa research) = None ->
  predict_admission gre toefl rating sop lor cgpa research model scaler w
  = (Halt ScalerShapeMismatch,
     shown (call_transform (feature_row gre toefl rating sop lor cgpa research)) w).
Proof. intros H. run. rewrite H. reflexivity. Qed.

Lemma evaluate_loaded (p : StudentProfile) (w w1 : World) (model : Model) (scaler : Scaler) :
  load_model w = (Ok (model, scaler), w1) ->
  evaluate p w
  = match predict_admission (gre p) (toefl p) (rating p) (sop p) (lor p) (cgpa p)
            (research p) model scaler (shown (st_success success_msg) w1) with
    | (Ok probability, w2) => (Ok (probability, classify probability), w2)
    | (Halt f, w2) => (Halt f, w2)
    | (PredictRaised, w2) => (PredictRaised, w2)
    end.
Proof. intros H. unfold evaluate, bind at 1. rewrite H. reflexivity. Qed.

Lemma evaluate_not_loaded (p : StudentProfile) (w w1 : World) (f : Failure) :
  load_model w = (Halt f, w1) -> evaluate p w = (Halt f, w1).
Proof. intros H. unfold evaluate, bind at 1. rewrite H. reflexivity. Qed.

End PipelineFacts.

(** ** The pipeline *)

Section PipelineClaims.
Context {A : Artifacts} {F : FloatFormat}.

(** C5. [predict_admission] hands the scaler one row,
    [gre; toefl; rating; sop; lor; cgpa; research], in this order, seven
    components: whatever the scaler and the model are, the result is what
    [transform] makes of exactly this row (and [predict] of its output), and
    the only call of [transform] recorded is on this row. *)
Theorem feature_row_order
    (gre toefl rating : Z) (sop lor cgpa : Q) (research : Z)
    (model : Model) (scaler : Scaler) (w : World) :
  let row := [inject_Z gre; inject_Z toefl; inject_Z rating; sop; lor; cgpa;
              inject_Z research] in
  List.length row = 7%nat /\
  predict_admission gre toefl rating sop lor cgpa research model scaler w
  = match transform scaler row with
    | None => (Halt ScalerShapeMismatch, shown (call_transform row) w)
    | Some scaled =>
        (match predict model scaled with
         | Some raw => Ok (fl (raw * 100))
         | None => PredictRaised
         end,
         shown (call_predict scaled) (shown (call_transform row) w))
    end.
Proof.
  intros row. split; [reflexivity | ].
  change row with (feature_row gre toefl rating sop lor cgpa research).
  destruct (transform scaler (feature_row gre toefl rating sop lor cgpa research))
    as [scaled |] eqn:Ht.
  - destruct (predict model scaled) as [raw |] eqn:Hp.
    + rewrite (predict_admission_ok _ _ _ _ _ _ _ model scaler scaled raw w Ht Hp).
      unfold shown. cbn [fs cache trace]. rewrite <- app_assoc. reflexivity.
    + rewrite (predict_admission_predict_raises _ _ _ _ _ _ _ model scaler scaled w Ht Hp).
      unfold shown. cbn [fs cache trace]. rewrite <- app_assoc. reflexivity.
  - apply predict_admission_raises. exact Ht.
Qed.



End PipelineClaims.

Section RunOutcome.
Context {A : Artifacts} {F : FloatFormat}.

(** The outcome of a run is [estimate] on what the loader hands out; the
    directory and the cache are left as the loader left them. *)
Lemma evaluate_estimate (p : StudentProfile) (w : World) :
  fst (evaluate p w) = estimate p (fst (load_model w)) /\
  fs (snd (evaluate p w)) = fs (snd (load_model w)) /\
  cache (snd (evaluate p w)) = cache (snd (load_model w)).
Proof.
  assert (Hret := load_model_returns w).
  destruct (load_model w) as [[[model scaler] | f | ] w1] eqn:Hload;
    [ | | contradiction Hret; reflexivity].
  - rewrite (evaluate_loaded p w w1 model scaler Hload). cbn [fst snd estimate].
    destruct (transform scaler _) as [scaled |] eqn:Ht.
    + destruct (predict model scaled) as [raw |] eqn:Hp.
      * rewrite (predict_admission_ok _ _ _ _ _ _ _ model scaler scaled raw _ Ht Hp).
        cbn. auto.
      * rewrite (predict_admission_predict_raises _ _ _ _ _ _ _ model scaler scaled _
                   Ht Hp).
        cbn. auto.
    + rewrite (predict_admission_raises _ _ _ _ _ _ _ model scaler _ Ht).
      cbn. auto.
  - rewrite (evaluate_not_loaded p w w1 f Hload). cbn. auto.
Qed.

End RunOutcome.

Section Loader.
Context {A : Artifacts} {F : FloatFormat}.

(** C7. When nothing is cached yet and the model file or the scaler file
    is absent, [load_model] stops the run with [MissingArtifact] for the
    first absent file, after an error and an instruction message and
    before any deserialisation, transform or prediction; nothing is cached,
    so the script halts there.  When [load_model] returns, the pair it
    returns is cached, and from then on every call returns that same pair
    without touching the directory or deserialising again. *)
Theorem load_model_missing_or_cached (p : StudentProfile) (w : World) :
  (cache w = None ->
   fs w model_path = None \/ fs w scaler_path = None ->
   exists resource m1 m2,
     let w' := shown (st_info m2) (shown (st_error m1) w) in
     (resource = model_path /\ fs w model_path = None \/
      resource = scaler_path /\ fs w model_path <> None /\ fs w scaler_path = None) /\
     load_model w = (Halt (MissingArtifact resource), w') /\
     evaluate p w = (Halt (MissingArtifact resource), w') /\
     cache w' = None) /\
  (forall mb sb model scaler,
      cache w = None ->
      fs w model_path = Some mb -> keras_load_model mb = Some model ->
      fs w scaler_path = Some sb -> joblib_load sb = Some scaler ->
      load_model w
      = (Ok (model, scaler),
         mkWorld (fs w) (Some (model, scaler))
           (trace w ++ [call_load_model model_path; call_joblib_load scaler_path]))) /\
  (forall artifacts w1,
      load_model w = (Ok artifacts, w1) ->
      cache w1 = Some artifacts /\
      forall w2, cache w2 = cache w1 -> load_model w2 = (Ok artifacts, w2)).
Proof.
  split; [ | split].
  - intros Hc Hmiss.
    assert (Hbody : exists resource m1 m2,
               (resource = model_path /\ fs w model_path = None \/
                resource = scaler_path /\ fs w model_path <> None
                /\ fs w scaler_path = None) /\
               load_model_body w
               = (Halt (MissingArtifact resource),
                  shown (st_info m2) (shown (st_error m1) w))).
    { destruct (fs w model_path) as [mb |] eqn:Hm.
      - destruct Hmiss as [Hmiss | Hs]; [discriminate | ].
        destruct (load_model_body_missing_scaler w mb Hm Hs) as (m1 & m2 & H).
        exists scaler_path, m1, m2. split; [right; repeat split; congruence | ].
        rewrite H. unfold shown. cbn [fs cache trace]. rewrite <- app_assoc.
        reflexivity.
      - destruct (load_model_body_missing_model w Hm) as (m1 & m2 & H).
        exists model_path, m1, m2. split; [left; auto | ].
        rewrite H. unfold shown. cbn [fs cache trace]. rewrite <- app_assoc.
        reflexivity. }
    destruct Hbody as (resource & m1 & m2 & Hwhich & Hbody).
    exists resource, m1, m2. intros w'.
    assert (Hload : load_model w = (Halt (MissingArtifact resource), w')).
    { unfold load_model, cache_resource. rewrite Hc, Hbody. reflexivity. }
    split; [exact Hwhich | split; [exact Hload | split]].
    + apply evaluate_not_loaded. exact Hload.
    + exact Hc.
  - intros mb sb model scaler Hc Hm Hk Hs Hj.
    unfold load_model, cache_resource.
    rewrite Hc, (load_model_body_ok w mb sb model scaler Hm Hk Hs Hj).
    reflexivity.
  - intros artifacts w1 Hload.
    destruct (load_model_ok_inv w w1 artifacts Hload) as [Hc1 _].
    split; [exact Hc1 | ].
    intros w2 Hc2. apply load_model_cached. congruence.
Qed.

End Loader.

(** ** The pipeline on the sample artifacts *)

Lemma nearest_2_20_monotone (x y : Q) : x <= y -> Sample.nearest_2_20 x <= Sample.nearest_2_20 y.
Proof.
  intros H. unfold Sample.nearest_2_20.
  assert (Hf : (Qfloor (x * 1048576 + (1 # 2)) <= Qfloor (y * 1048576 + (1 # 2)))%Z)
    by (apply Qfloor_resp_le; lra).
  rewrite Zle_Qle in Hf.
  assert (E : forall z, z / 1048576 == z * (1 # 1048576)) by (intros z; field).
  rewrite !E. lra.
Qed.

Lemma nearest_2_20_integer (k : Z) :
  (Z.abs k <= 2 ^ 24)%Z -> Sample.nearest_2_20 (inject_Z k) == inject_Z k.
Proof.
  intros _. unfold Sample.nearest_2_20.
  assert (Hf : Qfloor (inject_Z k * 1048576 + (1 # 2)) = (k * 1048576)%Z).
  { assert (Hlo := Qfloor_le (inject_Z k * 1048576 + (1 # 2))).
    assert (Hhi := Qlt_floor (inject_Z k * 1048576 + (1 # 2))).
    set (n := Qfloor (inject_Z k * 1048576 + (1 # 2))) in *.
    assert (E : inject_Z k * 1048576 == inject_Z (k * 1048576))
      by (rewrite inject_Z_mult; reflexivity).
    rewrite E in Hlo, Hhi.
    assert (H1 : inject_Z n < inject_Z (k * 1048576 + 1))
      by (rewrite inject_Z_plus; change (inject_Z 1) with 1; lra).
    assert (H2 : inject_Z (k * 1048576) < inject_Z (n + 1))
      by lra.
    rewrite <- Zlt_Qlt in H1, H2. lia. }
  rewrite Hf, inject_Z_mult. field.
Qed.

#[global] Instance sample_format : FloatFormat := {|
  fl := Sample.nearest_2_20;
  fl_monotone := nearest_2_20_monotone;
  fl_integer := nearest_2_20_integer
|}.

(** Rounding matters at the band edges: the double nearest to 0.6 is a
    little below 0.6, its exact product by 100 is below 60, and the rounded
    product is 60. *)
Example band_edge_rounding :
  let raw := 5404319552844595 # 9007199254740992 in
  category (classify (raw * 100)) = Medium /\
  fl (raw * 100) == 60 /\
  category (classify (fl (raw * 100))) = High.
Proof. repeat split. Qed.

Lemma sample_contract : ScalerContract Sample.artifacts.
Proof.
  intros scaler row H. cbn in *. unfold Sample.scaler_transform.
  destruct (Nat.eqb_spec (List.length row) (Sample.width scaler)); [contradiction | reflexivity].
Qed.





Lemma load_model_missing_or_cached_witness :
  let absent := Sample.fresh None (Some (Sample.Pkl Sample.scaler7)) in
  let present := Sample.fresh (Some (Sample.H5 Sample.model))
                   (Some (Sample.Pkl Sample.scaler7)) in
  (exists w', evaluate Sample.profile absent = (Halt (MissingArtifact model_path), w')
              /\ List.length (trace w') = 2%nat) /\
  (exists w1, load_model present = (Ok (Sample.model, Sample.scaler7), w1) /\
              load_model (Sample.fresh None None) <> load_model w1 /\
              fst (load_model (mkWorld (Sample.disk None None) (cache w1) []))
              = Ok (Sample.model, Sample.scaler7)).
Proof.
  intros absent present. split.
  - destruct (proj1 (load_model_missing_or_cached Sample.profile absent) eq_refl
                (or_introl eq_refl))
      as (resource & m1 & m2 & Hwhich & _ & He & _).
    destruct Hwhich as [[-> _] | (_ & Hm & _)]; [ | exfalso; apply Hm; reflexivity].
    eexists. split; [exact He | reflexivity].
  - eexists. split; [reflexivity | ]. split; [vm_compute; discriminate | ].
    destruct (proj2 (proj2 (load_model_missing_or_cached Sample.profile present))
                (Sample.model, Sample.scaler7) _ eq_refl) as [_ Hagain].
    rewrite (Hagain (mkWorld (Sample.disk None None) _ []) eq_refl). reflexivity.
Defined.

(** * Further properties of the script *)

(** ** Recommendations, categories and metrics *)

(** Each advisory is in the list exactly when its guard holds. *)
Lemma advisory_membership
    (gre toefl rating : Z) (sop lor cgpa : Q) (research : Z) (probability : Q) :
  let result :=
    generate_recommendations gre toefl rating sop lor cgpa research probability in
  (In Advisory.cgpa_msg result <-> cgpa < 8) /\
  (In Advisory.gre_msg result <-> (gre < 320)%Z) /\
  (In Advisory.toefl_msg result <-> (toefl < 100)%Z) /\
  (In Advisory.sop_msg result <-> sop < 4) /\
  (In Advisory.lor_msg result <-> lor < 4) /\
  (In Advisory.research_msg result <-> research = 0%Z) /\
  (In Advisory.backup_msg result <-> probability < 60).
Proof.
  intros result.
  assert (Hc : PyFloat.ltb cgpa 8.0 = true <-> cgpa < 8)
    by (rewrite ltb_lt; split; intros; lra).
  assert (Hs : PyFloat.ltb sop 4.0 = true <-> sop < 4)
    by (rewrite ltb_lt; split; intros; lra).
  assert (Hl : PyFloat.ltb lor 4.0 = true <-> lor < 4)
    by (rewrite ltb_lt; split; intros; lra).
  assert (Hp : PyFloat.ltb probability 60 = true <-> probability < 60)
    by apply ltb_lt.
  assert (Hg := Z.ltb_lt gre 320). assert (Ht := Z.ltb_lt toefl 100).
  assert (Hr := Z.eqb_eq research 0).
  assert (Hsel : forall msg,
             In msg result <->
             In (true, msg)
               (rule_table gre toefl rating sop lor cgpa research probability))
    by (intros msg; apply in_recommendations_iff).
  unfold rule_table in Hsel. cbn [In] in Hsel.
  repeat split; intros H.
  all: try (apply Hsel in H;
            repeat (destruct H as [H | H];
                    [ first [ injection H as H; tauto | other_advisory H ] | ]);
            contradiction).
  all: apply Hsel;
    first [ apply Hc in H | apply Hg in H | apply Ht in H | apply Hs in H
          | apply Hl in H | apply Hr in H | apply Hp in H ];
    rewrite H; repeat first [ left; reflexivity | right ].
Qed.

Lemma recommendations_among_all
    (gre toefl rating : Z) (sop lor cgpa : Q) (research : Z) (probability : Q)
    (msg : string) :
  In msg (generate_recommendations gre toefl rating sop lor cgpa research probability) ->
  In msg Advisory.all.
Proof.
  rewrite in_recommendations_iff. unfold rule_table, Advisory.all. cbn [In].
  intros H.
  repeat (destruct H as [H | H]; [apply (f_equal snd) in H; cbn [snd] in H; tauto |]).
  contradiction.
Qed.

(** X1. The backup advisory goes with the two lower categories only: it
    is shown for every Medium percentage and whenever the percentage is below
    40, hence only for Medium or Low and never for High or VeryHigh; 60 itself
    is High, without the advisory. *)
Theorem backup_advisory_and_category
    (gre toefl rating : Z) (sop lor cgpa : Q) (research : Z) (probability : Q) :
  let shown_advisories :=
    generate_recommendations gre toefl rating sop lor cgpa research probability in
  (In Advisory.backup_msg shown_advisories
   <-> category (classify probability) = Medium \/ probability < 40) /\
  (In Advisory.backup_msg shown_advisories ->
   category (classify probability) = Medium \/ category (classify probability) = Low) /\
  (category (classify probability) = High \/
   category (classify probability) = VeryHigh ->
   ~ In Advisory.backup_msg shown_advisories) /\
  (probability == 60 ->
   category (classify probability) = High /\
   ~ In Advisory.backup_msg shown_advisories).
Proof.
  intros shown_advisories.
  destruct (advisory_membership gre toefl rating sop lor cgpa research probability)
    as (_ & _ & _ & _ & _ & _ & Hb).
  fold shown_advisories in Hb.
  destruct (classify_category probability) as (Hv & Hh & Hm & Hl).
  rewrite Hb, Hv, Hh, Hm, Hl.
  split; [ | split; [ | split]].
  - split.
    + intros H. destruct (Qlt_le_dec probability 40); [right; assumption | left; split; assumption].
    + intros [[_ H] | H]; lra.
  - intros H. destruct (Qlt_le_dec probability 40); [right; assumption | left; split; assumption].
  - intros [[H _] | H]; lra.
  - intros H. split; [split | ]; lra.
Qed.

(** X2. Improving a profile never adds an advisory: with every score and
    the percentage at least as high, and research not dropped to 0, each
    advisory of the new list was already in the old one. *)
Theorem recommendations_antitone
    (gre gre' toefl toefl' rating rating' : Z) (sop sop' lor lor' cgpa cgpa' : Q)
    (research research' : Z) (probability probability' : Q) :
  (gre <= gre')%Z -> (toefl <= toefl')%Z -> sop <= sop' -> lor <= lor' ->
  cgpa <= cgpa' -> (research' = 0%Z -> research = 0%Z) ->
  probability <= probability' ->
  incl (generate_recommendations gre' toefl' rating' sop' lor' cgpa' research'
          probability')
       (generate_recommendations gre toefl rating sop lor cgpa research probability).
Proof.
  intros Hg Ht Hs Hl Hc Hr Hp msg Hin.
  assert (Hall := recommendations_among_all _ _ _ _ _ _ _ _ msg Hin).
  destruct (advisory_membership gre toefl rating sop lor cgpa research probability)
    as (A1 & A2 & A3 & A4 & A5 & A6 & A7).
  destruct (advisory_membership gre' toefl' rating' sop' lor' cgpa' research'
              probability') as (B1 & B2 & B3 & B4 & B5 & B6 & B7).
  unfold Advisory.all in Hall. cbn [In] in Hall.
  destruct Hall as [<- | [<- | [<- | [<- | [<- | [<- | [<- | []]]]]]]].
  - apply A1. apply B1 in Hin. lra.
  - apply A2. apply B2 in Hin. lia.
  - apply A3. apply B3 in Hin. lia.
  - apply A4. apply B4 in Hin. lra.
  - apply A5. apply B5 in Hin. lra.
  - apply A6. apply B6 in Hin. auto.
  - apply A7. apply B7 in Hin. lra.
Qed.

Lemma recommendations_antitone_witness :
  generate_recommendations 310 110 3 4.0 3.5 8.5 1 75
  = [Advisory.gre_msg; Advisory.lor_msg] /\
  incl (generate_recommendations 310 110 3 4.0 3.5 8.5 1 75)
       (generate_recommendations 300 90 2 3.0 3.0 7.5 0 50).
Proof.
  split; [reflexivity | ].
  apply (recommendations_antitone 300 310 90 110 2 3 3.0 4.0 3.0 3.5 7.5 8.5 0 1 50 75).
  - lia.
  - lia.
  - vm_compute; discriminate.
  - vm_compute; discriminate.
  - vm_compute; discriminate.
  - intros H; discriminate H.
  - vm_compute; discriminate.
Defined.

(** X3. The label of the strength metric cuts strictly above 80 and 60
    (Regular is whatever is not above 60), the status block at 80 and 60
    included: the two agree everywhere except at exactly 80 (VeryHigh, yet
    Buena) and exactly 60 (High, yet Regular). *)
Theorem strength_label_against_category (probability : Q) :
  (strength_label probability = "Excelente"%string <-> 80 < probability) /\
  (strength_label probability = "Buena"%string
   <-> 60 < probability /\ probability <= 80) /\
  (strength_label probability = "Regular"%string <-> ~ 60 < probability) /\
  (category (classify probability) = VeryHigh /\
   strength_label probability <> "Excelente"%string <-> probability == 80) /\
  (category (classify probability) = High /\
   strength_label probability <> "Buena"%string <-> probability == 60) /\
  (category (classify probability) = Medium \/ category (classify probability) = Low
   -> strength_label probability = "Regular"%string).
Proof.
  destruct (classify_category probability) as (Hv & Hh & Hm & Hl).
  rewrite Hv, Hh, Hm, Hl. unfold strength_label.
  destruct (PyFloat.ltb 80 probability) eqn:E80;
    [ apply ltb_lt in E80
    | apply not_true_iff_false in E80; rewrite ltb_lt in E80;
      destruct (PyFloat.ltb 60 probability) eqn:E60;
      [ apply ltb_lt in E60
      | apply not_true_iff_false in E60; rewrite ltb_lt in E60 ] ].
  all: repeat split; intros; try discriminate; try reflexivity; try lra.
  all: try (exfalso; lra).
  all: try match goal with
           | H : _ /\ _ |- _ => destruct H
           | H : _ \/ _ |- _ => destruct H
           end; try lra; try congruence; try discriminate.
Qed.

(** [format(n, '+d')] starts with the sign of [n], plus for 0; what is
    written after it does not matter. *)
Lemma format_plus_d_sign (n : Z) (tail : string) :
  (String.prefix "-" (format_plus_d n ++ tail) = true <-> (n < 0)%Z) /\
  (String.prefix "+" (format_plus_d n ++ tail) = true <-> (0 <= n)%Z).
Proof.
  unfold format_plus_d.
  destruct (Z.ltb_spec n 0) as [H | H]; cbn;
    split; split; intros; try discriminate; try lia;
    destruct (py_digits n ++ tail)%string; reflexivity.
Qed.

(** X4. The deltas of the metrics and the advisories use the same
    references: the GRE delta is written with a minus sign exactly when the
    GRE advisory is shown (else with a plus sign, also for 0), the TOEFL delta
    likewise, and the CGPA delta is negative exactly when the CGPA advisory is
    shown. *)
Theorem metric_deltas_match_advisories
    (gre toefl rating : Z) (sop lor cgpa : Q) (research : Z) (probability : Q) :
  let shown_advisories :=
    generate_recommendations gre toefl rating sop lor cgpa research probability in
  (String.prefix "-" (metric_delta (gre_metric gre)) = true
   <-> In Advisory.gre_msg shown_advisories) /\
  (String.prefix "+" (metric_delta (gre_metric gre)) = true
   <-> ~ In Advisory.gre_msg shown_advisories) /\
  (String.prefix "-" (metric_delta (toefl_metric toefl)) = true
   <-> In Advisory.toefl_msg shown_advisories) /\
  (String.prefix "+" (metric_delta (toefl_metric toefl)) = true
   <-> ~ In Advisory.toefl_msg shown_advisories) /\
  (cgpa_delta cgpa < 0 <-> In Advisory.cgpa_msg shown_advisories).
Proof.
  intros shown_advisories.
  destruct (advisory_membership gre toefl rating sop lor cgpa research probability)
    as (Hc & Hg & Ht & _).
  fold shown_advisories in Hc, Hg, Ht.
  cbn [gre_metric toefl_metric metric_delta].
  destruct (format_plus_d_sign (gre - 320) " vs promedio") as [G1 G2].
  destruct (format_plus_d_sign (toefl - 100) " vs mínimo") as [T1 T2].
  rewrite G1, G2, T1, T2, Hc, Hg, Ht. unfold cgpa_delta.
  repeat split; intros; try lia; lra.
Qed.

(** ** Progress bar *)

Lemma rem_negative (n d : Z) :
  (n < 0)%Z -> (0 < d)%Z -> (- d < Z.rem n d <= 0)%Z.
Proof.
  intros Hn Hd.
  assert (R := Z.rem_bound_pos (- n) d ltac:(lia) Hd).
  rewrite Z.rem_opp_l in R by lia. lia.
Qed.

Lemma py_int_le (x : Q) (k : Z) :
  (0 <= k)%Z -> ((py_int x <= k)%Z <-> x < inject_Z (k + 1)).
Proof.
  intros Hk. destruct x as [n d]. unfold py_int, Qlt. cbn [Qnum Qden inject_Z].
  assert (Hd : (0 < Z.pos d)%Z) by lia.
  assert (E := Z.quot_rem' n (Z.pos d)).
  destruct (Z.le_gt_cases 0 n) as [Hn | Hn].
  - assert (R := Z.rem_bound_pos n (Z.pos d) Hn Hd). nia.
  - assert (R := rem_negative n (Z.pos d) Hn Hd). nia.
Qed.

Lemma py_int_lt_0 (x : Q) : (py_int x + 1 <= 0)%Z <-> x <= -1.
Proof.
  destruct x as [n d]. unfold py_int, Qle. cbn [Qnum Qden].
  assert (Hd : (0 < Z.pos d)%Z) by lia.
  assert (E := Z.quot_rem' n (Z.pos d)).
  destruct (Z.le_gt_cases 0 n) as [Hn | Hn].
  - assert (R := Z.rem_bound_pos n (Z.pos d) Hn Hd).
    assert (Hq : (0 <= n ÷ Z.pos d)%Z) by (apply Z.quot_pos; lia). nia.
  - assert (R := rem_negative n (Z.pos d) Hn Hd). nia.
Qed.

Lemma in_py_range (n i : Z) : In i (py_range n) <-> (0 <= i < n)%Z.
Proof.
  unfold py_range. rewrite in_map_iff. split.
  - intros (k & <- & Hk). apply in_seq in Hk. lia.
  - intros H. exists (Z.to_nat i). split; [lia | ]. apply in_seq. lia.
Qed.

Lemma nth_py_range (n : Z) (k : nat) :
  (k < List.length (py_range n))%nat -> nth k (py_range n) 0%Z = Z.of_nat k.
Proof.
  unfold py_range. rewrite length_map, length_seq. intros Hk.
  rewrite (nth_indep _ 0%Z (Z.of_nat 0)) by (rewrite length_map, length_seq; exact Hk).
  rewrite map_nth, seq_nth by exact Hk. reflexivity.
Qed.

Lemma progress_updates_accepted (values : list Q) :
  (forall v, In v values -> progress_accepts v = true) ->
  progress_updates values = (values, false).
Proof.
  induction values as [| v rest IH]; intros H; cbn [progress_updates]; [reflexivity | ].
  rewrite (H v (or_introl eq_refl)), IH by (intros u Hu; apply H; right; exact Hu).
  reflexivity.
Qed.

Lemma progress_updates_refused (before after : list Q) (v : Q) :
  (forall u, In u before -> progress_accepts u = true) ->
  progress_accepts v = false ->
  progress_updates (before ++ v :: after) = (before, true).
Proof.
  intros Hb Hv. induction before as [| u rest IH]; cbn [app progress_updates].
  - rewrite Hv. reflexivity.
  - rewrite (Hb u (or_introl eq_refl)), IH by (intros x Hx; apply Hb; right; exact Hx).
    reflexivity.
Qed.

Lemma seq_from (a len : nat) : seq a len = map (fun i => (a + i)%nat) (seq 0 len).
Proof.
  revert a. induction len as [| len IH]; intros a; cbn [seq map]; [reflexivity | ].
  f_equal; [lia | ].
  rewrite (IH (S a)), (IH 1%nat), map_map. apply map_ext. intros i. lia.
Qed.

Lemma py_range_split (k n : Z) :
  (0 <= k <= n)%Z ->
  py_range n = py_range k ++ map (fun i => (k + i)%Z) (py_range (n - k)).
Proof.
  intros H. unfold py_range.
  replace (Z.to_nat n) with (Z.to_nat k + Z.to_nat (n - k))%nat by lia.
  rewrite seq_app, map_app. f_equal. cbn [Nat.add].
  rewrite (seq_from (Z.to_nat k)), !map_map.
  apply map_ext. intros i. lia.
Qed.

Lemma progress_accepts_iff (i : Z) :
  progress_accepts (inject_Z i / 100) = true <-> (0 <= i <= 100)%Z.
Proof.
  unfold progress_accepts. rewrite andb_true_iff, !Qle_bool_iff.
  assert (E : inject_Z i / 100 == inject_Z i * (1 # 100)) by field.
  rewrite E. rewrite (Zle_Qle 0 i), (Zle_Qle i 100).
  change (inject_Z 0) with 0. change (inject_Z 100) with 100.
  split; intros [H1 H2]; split; lra.
Qed.

(** X5. The loop of the progress bar, for a finite percentage.  Below 101
    it makes int(probability) + 1 updates, the k-th with k/100, all within
    0..1 (none at all when probability <= -1), and ends normally.  From 101
    on it makes the 101 updates 0, 0.01, ..., 1 and then raises on 1.01, so
    that the script stops in the loop. *)
Theorem progress_loop_outcomes (probability : Q) :
  (probability < 101 ->
   progress_loop probability
   = (map (fun i => inject_Z i / 100) (py_range (py_int probability + 1)), false) /\
   List.length (fst (progress_loop probability)) = Z.to_nat (py_int probability + 1) /\
   (forall k, (k < List.length (fst (progress_loop probability)))%nat ->
      nth k (fst (progress_loop probability)) 0 = inject_Z (Z.of_nat k) / 100) /\
   (forall v, In v (fst (progress_loop probability)) -> 0 <= v <= 1)) /\
  (probability <= -1 -> progress_loop probability = ([], false)) /\
  (101 <= probability ->
   progress_loop probability
   = (map (fun i => inject_Z i / 100) (py_range 101), true) /\
   List.length (fst (progress_loop probability)) = 101%nat /\
   In 1.01 (map (fun i => inject_Z i / 100) (py_range (py_int probability + 1)))).
Proof.
  assert (H101 : (py_int probability <= 100)%Z <-> probability < 101)
    by (apply (py_int_le probability 100); lia).
  unfold progress_loop. set (f := fun i : Z => inject_Z i / 100).
  split; [ | split].
  - intros Hp. apply H101 in Hp.
    assert (Hacc : forall v, In v (map f (py_range (py_int probability + 1))) ->
                             progress_accepts v = true).
    { intros v Hv. apply in_map_iff in Hv as (i & <- & Hi). apply in_py_range in Hi.
      apply progress_accepts_iff. lia. }
    rewrite (progress_updates_accepted _ Hacc). cbn [fst].
    split; [reflexivity | ].
    split; [unfold py_range; rewrite !length_map, length_seq; reflexivity | ].
    split.
    + intros k Hk. rewrite length_map in Hk.
      rewrite (nth_indep _ 0 (f 0%Z)) by (rewrite length_map; exact Hk).
      rewrite map_nth, nth_py_range by exact Hk. reflexivity.
    + intros v Hv. specialize (Hacc v Hv). unfold progress_accepts in Hacc.
      rewrite andb_true_iff, !Qle_bool_iff in Hacc. exact Hacc.
  - intros Hp. apply py_int_lt_0 in Hp.
    unfold py_range. replace (Z.to_nat (py_int probability + 1)) with 0%nat by lia.
    reflexivity.
  - intros Hp.
    assert (Hint : (101 <= py_int probability)%Z).
    { destruct (Z.le_gt_cases 101 (py_int probability)) as [H | H]; [exact H | ].
      exfalso. assert (probability < 101) by (apply H101; lia). lra. }
    assert (Hsplit : py_range (py_int probability + 1)
                     = py_range 101
                       ++ map (fun i => (101 + i)%Z)
                            (py_range (py_int probability + 1 - 101)))
      by (apply py_range_split; lia).
    assert (Hnext : exists rest,
               map (fun i => (101 + i)%Z) (py_range (py_int probability + 1 - 101))
               = 101%Z :: rest).
    { unfold py_range.
      destruct (Z.to_nat (py_int probability + 1 - 101)) as [| n] eqn:E; [lia | ].
      cbn [seq map]. eexists. reflexivity. }
    destruct Hnext as (rest & Hnext).
    rewrite Hsplit, Hnext, map_app. cbn [map].
    rewrite progress_updates_refused.
    + cbn [fst]. split; [reflexivity | ].
      split; [unfold py_range; rewrite !length_map, length_seq; reflexivity | ].
      apply in_or_app. right. left. reflexivity.
    + intros u Hu. apply in_map_iff in Hu as (i & <- & Hi). apply in_py_range in Hi.
      apply progress_accepts_iff. lia.
    + reflexivity.
Qed.

(** ** Gauge *)

(** X6. The gauge shows the percentage as it is.  Its four steps tile
    0..100 and change colour exactly where the status block changes category:
    two percentages of 0..100 (100 excluded) fall in the same step if and only
    if they get the same category.  A percentage below 0 or above 100 lies
    in no step. *)
Theorem gauge_steps_match_categories (probability other : Q) :
  let gauge := create_gauge_chart probability in
  gauge_value gauge = probability /\
  ((exists s, In s (gauge_steps gauge) /\ step_lo s <= probability <= step_hi s)
   <-> 0 <= probability <= gauge_axis_max gauge) /\
  (0 <= probability < 100 -> 0 <= other < 100 ->
   ((exists s, In s (gauge_steps gauge) /\ in_step s probability /\ in_step s other)
    <-> category (classify probability) = category (classify other))).
Proof.
  intros gauge. split; [reflexivity | ].
  cbn [gauge create_gauge_chart gauge_steps gauge_axis_max].
  split.
  - split.
    + intros (s & Hs & Hlo & Hhi). cbn [In] in Hs.
      destruct Hs as [<- | [<- | [<- | [<- | []]]]]; cbn in Hlo, Hhi; lra.
    + intros [H0 H100].
      destruct (Qlt_le_dec probability 40);
        [ | destruct (Qlt_le_dec probability 60);
            [ | destruct (Qlt_le_dec probability 80) ] ].
      * eexists. split; [left; reflexivity | cbn; lra].
      * eexists. split; [right; left; reflexivity | cbn; lra].
      * eexists. split; [right; right; left; reflexivity | cbn; lra].
      * eexists. split; [right; right; right; left; reflexivity | cbn; lra].
  - intros Hp Ho.
    destruct (classify_category probability) as (Pv & Ph & Pm & Pl).
    destruct (classify_category other) as (Ov & Oh & Om & Ol).
    unfold in_step. split.
    + intros (s & Hs & [Hlo Hhi] & [Hlo' Hhi']). cbn [In] in Hs.
      destruct Hs as [<- | [<- | [<- | [<- | []]]]]; cbn in Hlo, Hhi, Hlo', Hhi'.
      * transitivity Low; [apply Pl; lra | symmetry; apply Ol; lra].
      * transitivity Medium; [apply Pm; lra | symmetry; apply Om; lra].
      * transitivity High; [apply Ph; lra | symmetry; apply Oh; lra].
      * transitivity VeryHigh; [apply Pv; lra | symmetry; apply Ov; lra].
    + intros Heq.
      destruct (category (classify probability)) eqn:E; symmetry in Heq.
      * exists (mkStep 80 100 "rgba(23, 162, 184, 0.3)").
        split; [cbn; tauto | ]. apply Ov in Heq. assert (80 <= probability) by (apply Pv; reflexivity).
        cbn. lra.
      * exists (mkStep 60 80 "rgba(40, 167, 69, 0.3)").
        split; [cbn; tauto | ]. apply Oh in Heq.
        assert (60 <= probability /\ probability < 80) by (apply Ph; reflexivity).
        cbn. lra.
      * exists (mkStep 40 60 "rgba(255, 193, 7, 0.3)").
        split; [cbn; tauto | ]. apply Om in Heq.
        assert (40 <= probability /\ probability < 60) by (apply Pm; reflexivity).
        cbn. lra.
      * exists (mkStep 0 40 "rgba(220, 53, 69, 0.3)").
        split; [cbn; tauto | ]. apply Ol in Heq.
        assert (probability < 40) by (apply Pl; reflexivity).
        cbn. lra.
Qed.

(** ** Tips block *)

Lemma enumerate_length {T : Type} (start : Z) (l : list T) :
  List.length (enumerate start l) = List.length l.
Proof. revert start. induction l as [| x l IH]; intros start; cbn; [ | rewrite IH]; reflexivity. Qed.

Lemma enumerate_nth {T : Type} (l : list T) :
  forall (start : Z) (k : nat) (d : T) (e : Z * T),
    (k < List.length l)%nat ->
    nth k (enumerate start l) e = ((start + Z.of_nat k)%Z, nth k l d).
Proof.
  induction l as [| x l IH]; intros start k d e Hk; cbn in Hk; [lia | ].
  destruct k as [| k]; cbn [enumerate nth].
  - f_equal. lia.
  - rewrite (IH (start + 1)%Z k d e) by lia. f_equal. lia.
Qed.

(** X7. The tips block is skipped altogether exactly when no guard holds.
    Otherwise it is the opening tag, the title, the advisories in order, the
    k-th on a line that starts with k and a dot (k from 1, at most 7), and the
    closing tag. *)
Theorem tips_block_numbering
    (gre toefl rating : Z) (sop lor cgpa : Q) (research : Z) (probability : Q) :
  let recommendations :=
    generate_recommendations gre toefl rating sop lor cgpa research probability in
  let lines := show_recommendations recommendations in
  (lines = [] <->
     ~ cgpa < 8 /\ ~ (gre < 320)%Z /\ ~ (toefl < 100)%Z /\ ~ sop < 4 /\
     ~ lor < 4 /\ research <> 0%Z /\ ~ probability < 60) /\
  (List.length recommendations <= 7)%nat /\
  (lines <> [] ->
   List.length lines = (List.length recommendations + 3)%nat /\
   nth 0 lines EmptyString
   = ("<div class=" ++ dquote ++ "tips-container" ++ dquote ++ ">")%string /\
   nth 1 lines EmptyString = "### 🎯 Recomendaciones Personalizadas"%string /\
   nth (List.length recommendations + 2) lines EmptyString = "</div>"%string) /\
  (forall k, (k < List.length recommendations)%nat ->
     nth (k + 2) lines EmptyString
     = (py_str (Z.of_nat k + 1) ++ ". " ++ nth k recommendations EmptyString)%string).
Proof.
  intros recommendations lines.
  assert (Hempty : lines = [] <-> recommendations = []).
  { unfold lines, show_recommendations.
    destruct recommendations; split; intros H; try reflexivity; discriminate. }
  assert (Hmem := advisory_membership gre toefl rating sop lor cgpa research probability).
  assert (Hall := recommendations_among_all gre toefl rating sop lor cgpa research
                    probability).
  cbv zeta in Hmem. fold recommendations in Hmem, Hall.
  destruct Hmem as (M1 & M2 & M3 & M4 & M5 & M6 & M7).
  split; [ | split; [ | split]].
  - rewrite Hempty, <- M1, <- M2, <- M3, <- M4, <- M5, <- M6, <- M7. split.
    + intros ->. cbn [In]. tauto.
    + intros (N1 & N2 & N3 & N4 & N5 & N6 & N7).
      destruct recommendations as [| msg rest] eqn:E; [reflexivity | exfalso].
      assert (Hin : In msg (msg :: rest)) by (left; reflexivity).
      assert (Hmsg := Hall msg Hin). unfold Advisory.all in Hmsg. cbn [In] in Hmsg.
      destruct Hmsg as [<- | [<- | [<- | [<- | [<- | [<- | [<- | []]]]]]]]; tauto.
  - unfold recommendations. rewrite generate_recommendations_table.
    unfold recommend_spec. rewrite length_map.
    change 7%nat with
      (List.length (rule_table gre toefl rating sop lor cgpa research probability)).
    apply filter_length_le.
  - intros Hne. unfold lines, show_recommendations in *.
    destruct recommendations as [| msg rest] eqn:E; [contradiction Hne; reflexivity | ].
    rewrite <- E. split; [ | split; [reflexivity | split; [reflexivity | ]]].
    + rewrite !length_app, length_map, enumerate_length. cbn [List.length]. lia.
    + rewrite app_nth2 by (cbn [List.length]; lia).
      rewrite app_nth2
        by (cbn [List.length]; rewrite length_map, enumerate_length; lia).
      cbn [List.length]. rewrite length_map, enumerate_length.
      replace (List.length recommendations + 2 - 2 - List.length recommendations)%nat
        with 0%nat by lia.
      reflexivity.
  - intros k Hk. unfold lines, show_recommendations.
    destruct recommendations as [| msg rest] eqn:E; [cbn in Hk; lia | ].
    rewrite <- E in *.
    rewrite app_nth2 by (cbn [List.length]; lia).
    rewrite app_nth1 by (rewrite length_map, enumerate_length; cbn [List.length]; lia).
    cbn [List.length]. replace (k + 2 - 2)%nat with k by lia.
    set (f := fun '(i, rec) => (py_str i ++ ". " ++ rec)%string).
    rewrite (nth_indep _ EmptyString (f (0%Z, EmptyString)))
      by (rewrite length_map, enumerate_length; exact Hk).
    rewrite map_nth, (enumerate_nth recommendations 1 k EmptyString) by exact Hk.
    unfold f. f_equal. f_equal. lia.
Qed.

(** ** Radar chart: order and identity of profiles *)

Lemma rescale_lt (x y lo d : Q) :
  0 < d -> ((x - lo) / d * 100 < (y - lo) / d * 100 <-> x < y).
Proof.
  intros Hd.
  assert (E : forall z, (z - lo) / d * 100 == (z - lo) * (100 / d))
    by (intros z; field; lra).
  assert (Hk : 0 < 100 / d) by (apply Qlt_shift_div_l; lra).
  rewrite !E. split; intros H; nra.
Qed.

Lemma fraction_lt (x y d : Q) : 0 < d -> (x / d * 100 < y / d * 100 <-> x < y).
Proof.
  intros Hd. rewrite <- (rescale_lt x y 0 d Hd).
  assert (E : forall z, (z - 0) / d == z / d) by (intros z; field; lra).
  rewrite !E. reflexivity.
Qed.

Lemma radar_values_lt
    (gre gre' toefl toefl' rating rating' : Z) (sop sop' lor lor' cgpa cgpa' : Q)
    (research research' : Z) :
  let v := create_radar_chart_values gre toefl rating sop lor cgpa research in
  let v' := create_radar_chart_values gre' toefl' rating' sop' lor' cgpa' research' in
  (nth 0 v 0 < nth 0 v' 0 <-> (gre < gre')%Z) /\
  (nth 1 v 0 < nth 1 v' 0 <-> (toefl < toefl')%Z) /\
  (nth 2 v 0 < nth 2 v' 0 <-> (rating < rating')%Z) /\
  (nth 3 v 0 < nth 3 v' 0 <-> sop < sop') /\
  (nth 4 v 0 < nth 4 v' 0 <-> lor < lor') /\
  (nth 5 v 0 < nth 5 v' 0 <-> cgpa < cgpa') /\
  (nth 6 v 0 < nth 6 v' 0 <-> (research < research')%Z).
Proof.
  cbn [create_radar_chart_values nth].
  split.
  { rewrite !inject_Z_sub.
    rewrite (rescale_lt (inject_Z gre) (inject_Z gre') (inject_Z 260)
               (inject_Z 340 - inject_Z 260)) by reflexivity.
    rewrite <- Zlt_Qlt. reflexivity. }
  split; [rewrite fraction_lt by reflexivity; rewrite <- Zlt_Qlt; reflexivity | ].
  split; [rewrite fraction_lt by reflexivity; rewrite <- Zlt_Qlt; reflexivity | ].
  split; [apply fraction_lt; reflexivity | ].
  split; [apply fraction_lt; reflexivity | ].
  split; [apply rescale_lt; reflexivity | ].
  rewrite <- Zlt_Qlt. lia.
Qed.

(** X8. A higher input is never drawn lower: each of the seven radar
    values is non-decreasing in its own input. *)
Theorem radar_values_monotone
    (gre gre' toefl toefl' rating rating' : Z) (sop sop' lor lor' cgpa cgpa' : Q)
    (research research' : Z) :
  let v := create_radar_chart_values gre toefl rating sop lor cgpa research in
  let v' := create_radar_chart_values gre' toefl' rating' sop' lor' cgpa' research' in
  ((gre <= gre')%Z -> nth 0 v 0 <= nth 0 v' 0) /\
  ((toefl <= toefl')%Z -> nth 1 v 0 <= nth 1 v' 0) /\
  ((rating <= rating')%Z -> nth 2 v 0 <= nth 2 v' 0) /\
  (sop <= sop' -> nth 3 v 0 <= nth 3 v' 0) /\
  (lor <= lor' -> nth 4 v 0 <= nth 4 v' 0) /\
  (cgpa <= cgpa' -> nth 5 v 0 <= nth 5 v' 0) /\
  ((research <= research')%Z -> nth 6 v 0 <= nth 6 v' 0).
Proof.
  intros v v'.
  destruct (radar_values_lt gre' gre toefl' toefl rating' rating sop' sop lor' lor
              cgpa' cgpa research' research) as (G0 & G1 & G2 & G3 & G4 & G5 & G6).
  fold v v' in G0, G1, G2, G3, G4, G5, G6.
  repeat split; intros H; apply Qnot_lt_le; intros Hlt;
    first [ apply G0 in Hlt | apply G1 in Hlt | apply G2 in Hlt | apply G3 in Hlt
          | apply G4 in Hlt | apply G5 in Hlt | apply G6 in Hlt ];
    first [ lia | lra ].
Qed.

(** ** Loader: corrupt files, causes of each outcome, reruns *)

Section LoaderOutcomes.
Context {A : Artifacts} {F : FloatFormat}.

Lemma load_model_body_corrupt_model (w : World) (mb sb : Blob) :
  fs w model_path = Some mb -> fs w scaler_path = Some sb ->
  keras_load_model mb = None ->
  exists m,
    load_model_body w
    = (Halt ArtifactCorrupt, shown (st_error m) (shown (call_load_model model_path) w)).
Proof.
  intros Hm Hs Hk. run. rewrite Hm. cbn. rewrite Hs. cbn. rewrite Hm, Hk. cbn.
  eexists. reflexivity.
Qed.

Lemma load_model_body_corrupt_scaler (w : World) (mb sb : Blob) (model : Model) :
  fs w model_path = Some mb -> fs w scaler_path = Some sb ->
  keras_load_model mb = Some model -> joblib_load sb = None ->
  exists m,
    load_model_body w
    = (Halt ArtifactCorrupt,
       shown (st_error m)
         (shown (call_joblib_load scaler_path) (shown (call_load_model model_path) w))).
Proof.
  intros Hm Hs Hk Hj. run. rewrite Hm. cbn. rewrite Hs. cbn. rewrite Hm, Hk. cbn.
  rewrite Hs, Hj. cbn. eexists. reflexivity.
Qed.

Lemma load_model_uncached (w : World) (f : Failure) (w1 : World) :
  cache w = None -> load_model_body w = (Halt f, w1) -> load_model w = (Halt f, w1).
Proof. intros Hc Hb. unfold load_model, cache_resource. rewrite Hc, Hb. reflexivity. Qed.

(** X9. Both files are there but one does not deserialise: the run stops
    with [ArtifactCorrupt] after one error message, nothing is cached and
    nothing is predicted.  The model is read first: when it fails,
    [joblib.load] is not called at all. *)
Theorem corrupt_artifact_halts
    (p : StudentProfile) (w : World) (mb sb : Blob) :
  cache w = None ->
  fs w model_path = Some mb -> fs w scaler_path = Some sb ->
  (keras_load_model mb = None ->
   exists m,
     evaluate p w
     = (Halt ArtifactCorrupt,
        shown (st_error m) (shown (call_load_model model_path) w))) /\
  (forall model,
      keras_load_model mb = Some model -> joblib_load sb = None ->
      exists m,
        evaluate p w
        = (Halt ArtifactCorrupt,
           shown (st_error m)
             (shown (call_joblib_load scaler_path)
                (shown (call_load_model model_path) w)))) /\
  (keras_load_model mb = None \/ joblib_load sb = None ->
   fst (evaluate p w) = Halt ArtifactCorrupt /\
   cache (snd (evaluate p w)) = None /\
   forall x, In (call_predict x) (trace (snd (evaluate p w))) ->
             In (call_predict x) (trace w)).
Proof.
  intros Hc Hm Hs.
  assert (H1 : keras_load_model mb = None ->
               exists m,
                 evaluate p w
                 = (Halt ArtifactCorrupt,
                    shown (st_error m) (shown (call_load_model model_path) w))).
  { intros Hk.
    destruct (load_model_body_corrupt_model w mb sb Hm Hs Hk) as (m & Hb).
    exists m. apply evaluate_not_loaded, load_model_uncached; assumption. }
  assert (H2 : forall model,
             keras_load_model mb = Some model -> joblib_load sb = None ->
             exists m,
               evaluate p w
               = (Halt ArtifactCorrupt,
                  shown (st_error m)
                    (shown (call_joblib_load scaler_path)
                       (shown (call_load_model model_path) w)))).
  { intros model Hk Hj.
    destruct (load_model_body_corrupt_scaler w mb sb model Hm Hs Hk Hj) as (m & Hb).
    exists m. apply evaluate_not_loaded, load_model_uncached; assumption. }
  split; [exact H1 | split; [exact H2 | ]].
  intros Hbad.
  assert (He : exists w1 new,
             evaluate p w = (Halt ArtifactCorrupt, w1) /\ cache w1 = None /\
             trace w1 = trace w ++ new /\ forall x, ~ In (call_predict x) new).
  { destruct (keras_load_model mb) as [model |] eqn:Hk.
    - destruct Hbad as [Hbad | Hj]; [discriminate | ].
      destruct (H2 model eq_refl Hj) as (m & He).
      eexists _, [_; _; _]. split; [exact He | ]. split; [exact Hc | ].
      split; [cbn; rewrite <- !app_assoc; reflexivity | ].
      intros x [H | [H | [H | []]]]; discriminate.
    - destruct (H1 eq_refl) as (m & He).
      eexists _, [_; _]. split; [exact He | ]. split; [exact Hc | ].
      split; [cbn; rewrite <- !app_assoc; reflexivity | ].
      intros x [H | [H | []]]; discriminate. }
  destruct He as (w1 & new & He & Hc1 & Ht & Hnew).
  rewrite He. cbn [fst snd]. split; [reflexivity | split; [exact Hc1 | ]].
  intros x Hx. rewrite Ht in Hx. apply in_app_or in Hx as [Hx | Hx]; [exact Hx | ].
  exfalso. exact (Hnew x Hx).
Qed.

End LoaderOutcomes.

Section LoaderCauses.
Context {A : Artifacts} {F : FloatFormat}.

(** What the body of the loader does, case by case on the directory. *)
Lemma load_model_body_cases (w : World) :
  match fst (load_model_body w) with
  | Ok (model, scaler) =>
      exists mb sb,
        fs w model_path = Some mb /\ fs w scaler_path = Some sb /\
        keras_load_model mb = Some model /\ joblib_load sb = Some scaler
  | Halt (MissingArtifact resource) =>
      resource = model_path /\ fs w model_path = None \/
      resource = scaler_path /\ fs w model_path <> None /\ fs w scaler_path = None
  | Halt ArtifactCorrupt =>
      exists mb sb,
        fs w model_path = Some mb /\ fs w scaler_path = Some sb /\
        (keras_load_model mb = None \/ joblib_load sb = None)
  | Halt ScalerShapeMismatch => False
  | PredictRaised => False
  end.
Proof.
  destruct (fs w model_path) as [mb |] eqn:Hm.
  - destruct (fs w scaler_path) as [sb |] eqn:Hs.
    + destruct (keras_load_model mb) as [model |] eqn:Hk.
      * destruct (joblib_load sb) as [scaler |] eqn:Hj.
        -- rewrite (load_model_body_ok w mb sb model scaler Hm Hk Hs Hj). cbn.
           exists mb, sb. auto.
        -- destruct (load_model_body_corrupt_scaler w mb sb model Hm Hs Hk Hj)
             as (m & ->). cbn. exists mb, sb. auto.
      * destruct (load_model_body_corrupt_model w mb sb Hm Hs Hk) as (m & ->). cbn.
        exists mb, sb. auto.
    + destruct (load_model_body_missing_scaler w mb Hm Hs) as (m1 & m2 & ->). cbn.
      right. repeat split. congruence.
  - destruct (load_model_body_missing_model w Hm) as (m1 & m2 & ->). cbn.
    left. auto.
Qed.

(** A returned pair is cached, a failure never is. *)
Lemma load_model_outcome_cases (w : World) :
  cache (snd (load_model w))
  = match fst (load_model w) with
    | Ok loaded => Some loaded
    | Halt _ => None
    | PredictRaised => None
    end /\
  fs (snd (load_model w)) = fs w.
Proof.
  assert (Hret := load_model_returns w).
  destruct (load_model w) as [[loaded | f | ] w1] eqn:Hload; cbn [fst snd] in *.
  - destruct (load_model_ok_inv w w1 _ Hload). auto.
  - destruct (load_model_halt_inv w w1 f Hload) as (_ & Hc1 & Hfs & _). auto.
  - contradiction Hret. reflexivity.
Qed.

(** X10. Every outcome of [load_model] has one cause.  A pair comes from
    the cache, or else from two files that both deserialise to it;
    [MissingArtifact] names a file that is really absent (the model first);
    [ArtifactCorrupt] means both files exist and one does not deserialise; no
    other failure comes out of the loader.  A returned pair is cached, a
    failure never is, and the directory is not written. *)
Theorem load_model_outcome_causes (w : World) :
  match fst (load_model w) with
  | Ok (model, scaler) =>
      cache w = Some (model, scaler) \/
      cache w = None /\
      exists mb sb,
        fs w model_path = Some mb /\ fs w scaler_path = Some sb /\
        keras_load_model mb = Some model /\ joblib_load sb = Some scaler
  | Halt (MissingArtifact resource) =>
      cache w = None /\
      (resource = model_path /\ fs w model_path = None \/
       resource = scaler_path /\ fs w model_path <> None /\ fs w scaler_path = None)
  | Halt ArtifactCorrupt =>
      cache w = None /\
      exists mb sb,
        fs w model_path = Some mb /\ fs w scaler_path = Some sb /\
        (keras_load_model mb = None \/ joblib_load sb = None)
  | Halt ScalerShapeMismatch => False
  | PredictRaised => False
  end /\
  cache (snd (load_model w))
  = match fst (load_model w) with
    | Ok loaded => Some loaded
    | Halt _ => None
    | PredictRaised => None
    end /\
  fs (snd (load_model w)) = fs w.
Proof.
  assert (Hbody := load_model_body_cases w).
  assert (Hret := load_model_returns w).
  destruct (load_model w) as [[[model scaler] | f | ] w1] eqn:Hload; cbn [fst snd] in *;
    [ | | contradiction Hret; reflexivity].
  - destruct (load_model_ok_inv w w1 _ Hload) as [Hc1 Hfs].
    split; [ | split; assumption].
    destruct (cache w) as [cached |] eqn:Hc.
    + left. rewrite (load_model_cached w cached Hc) in Hload.
      injection Hload as -> _. reflexivity.
    + right. split; [reflexivity | ].
      unfold load_model, cache_resource in Hload. rewrite Hc in Hload.
      destruct (load_model_body w) as [[loaded | f | ] w'] eqn:Hb; try discriminate.
      injection Hload as -> _. exact Hbody.
  - destruct (load_model_halt_inv w w1 f Hload) as (Hc & Hc1 & Hfs & Hb).
    rewrite Hb in Hbody. cbn [fst] in Hbody.
    split; [ | split; assumption].
    destruct f as [resource | | ]; [split; assumption | split; assumption | exact Hbody].
Qed.

(** A run on a filled cache: where the percentage comes from and what is
    recorded. *)
Lemma evaluate_cached (p : StudentProfile) (w : World) (model : Model) (scaler : Scaler) :
  cache w = Some (model, scaler) ->
  let row := feature_row (gre p) (toefl p) (rating p) (sop p) (lor p) (cgpa p)
               (research p) in
  evaluate p w
  = (estimate p (Ok (model, scaler)),
     mkWorld (fs w) (cache w)
       (trace w ++ st_success success_msg :: call_transform row
          :: match transform scaler row with
             | Some scaled => [call_predict scaled]
             | None => []
             end)).
Proof.
  intros Hc row.
  rewrite (evaluate_loaded p w w model scaler (load_model_cached w _ Hc)).
  unfold estimate. fold row.
  destruct (transform scaler row) as [scaled |] eqn:Ht.
  - unfold row in Ht. destruct (predict model scaled) as [raw |] eqn:Hp.
    + rewrite (predict_admission_ok _ _ _ _ _ _ _ model scaler scaled raw _ Ht Hp).
      unfold shown. cbn [fs cache trace]. rewrite <- app_assoc. reflexivity.
    + rewrite (predict_admission_predict_raises _ _ _ _ _ _ _ model scaler scaled _
                 Ht Hp).
      unfold shown. cbn [fs cache trace]. rewrite <- app_assoc. reflexivity.
  - unfold row in Ht.
    rewrite (predict_admission_raises _ _ _ _ _ _ _ model scaler _ Ht).
    unfold shown. cbn [fs cache trace]. rewrite <- !app_assoc. reflexivity.
Qed.

(** X11. Once a pair is cached, every later run of the process, whatever
    the profile and whatever has become of the directory, computes with that
    pair: the outcomes are those of [estimate] on it, the cache does not
    change and no file is deserialised again. *)
Theorem session_keeps_cached_pair
    (runs : list ((string -> option Blob) * StudentProfile)) :
  forall (w : World) (cached : Model * Scaler),
    cache w = Some cached ->
    fst (session runs w) = map (fun run => estimate (snd run) (Ok cached)) runs /\
    cache (snd (session runs w)) = Some cached /\
    filter is_deserialisation (trace (snd (session runs w)))
    = filter is_deserialisation (trace w).
Proof.
  induction runs as [| [dir p] runs IH]; intros w [model scaler] Hc.
  - cbn. auto.
  - cbn [session map snd]. unfold rerun.
    rewrite (evaluate_cached p (mkWorld dir (cache w) (trace w)) model scaler Hc).
    cbn [fs cache trace].
    match goal with
    | |- context [session runs ?w1] =>
        destruct (IH w1 (model, scaler) Hc) as (Ho & Hc' & Ht);
        destruct (session runs w1) as [os w2]
    end.
    cbn [fst snd] in *. split; [f_equal; exact Ho | split; [exact Hc' | ]].
    rewrite Ht. cbn [trace]. rewrite filter_app.
    cbn [filter is_deserialisation].
    destruct (transform scaler _); cbn [filter is_deserialisation];
      apply app_nil_r.
Qed.

End LoaderCauses.

Section RunsAndEvents.
Context {A : Artifacts} {F : FloatFormat}.

Lemma load_model_fresh_ok (w : World) (mb sb : Blob) (model : Model) (scaler : Scaler) :
  cache w = None ->
  fs w model_path = Some mb -> keras_load_model mb = Some model ->
  fs w scaler_path = Some sb -> joblib_load sb = Some scaler ->
  fst (load_model w) = Ok (model, scaler).
Proof.
  intros Hc Hm Hk Hs Hj. unfold load_model, cache_resource.
  rewrite Hc, (load_model_body_ok w mb sb model scaler Hm Hk Hs Hj). reflexivity.
Qed.

(** X12. A failed load is not remembered: after a run that stopped in the
    loader, a rerun that finds two loadable files computes with them and
    caches them. *)
Theorem failed_load_is_retried
    (p p' : StudentProfile) (w w1 : World) (f : Failure)
    (dir : string -> option Blob) (mb sb : Blob) (model : Model) (scaler : Scaler) :
  evaluate p w = (Halt f, w1) -> f <> ScalerShapeMismatch ->
  dir model_path = Some mb -> keras_load_model mb = Some model ->
  dir scaler_path = Some sb -> joblib_load sb = Some scaler ->
  fst (rerun dir p' w1) = estimate p' (Ok (model, scaler)) /\
  cache (snd (rerun dir p' w1)) = Some (model, scaler).
Proof.
  intros He Hf Hm Hk Hs Hj.
  assert (Hc1 : cache w1 = None).
  { destruct (evaluate_estimate p w) as (Ho & _ & Hc). rewrite He in Ho, Hc.
    cbn [fst snd] in Ho, Hc.
    destruct (load_model_outcome_cases w) as [Hcache _].
    destruct (load_model w) as [[[m s] | f' | ] w'] eqn:Hload; cbn [fst snd] in *.
    - unfold estimate in Ho.
      destruct (transform s _) as [scaled |];
        [destruct (predict m scaled); discriminate | ].
      injection Ho as ->. contradiction Hf. reflexivity.
    - rewrite Hc. exact Hcache.
    - rewrite Hc. exact Hcache. }
  unfold rerun.
  destruct (evaluate_estimate p' (mkWorld dir (cache w1) (trace w1))) as (Ho & _ & Hc).
  assert (Hload : fst (load_model (mkWorld dir (cache w1) (trace w1)))
                  = Ok (model, scaler))
    by (apply (load_model_fresh_ok _ mb sb); assumption).
  rewrite Ho, Hc, Hload. split; [reflexivity | ].
  destruct (load_model_outcome_cases (mkWorld dir (cache w1) (trace w1))) as [Hcache _].
  rewrite Hload in Hcache. exact Hcache.
Qed.

(** The loader only appends events, none of them a call of the scaler or of
    the model. *)
Lemma load_model_events (w : World) :
  exists new,
    trace (snd (load_model w)) = trace w ++ new /\ filter is_inference new = [].
Proof.
  unfold load_model, cache_resource.
  destruct (cache w) as [cached |]; [exists []; cbn; rewrite app_nil_r; auto | ].
  assert (Hb : exists new,
             trace (snd (load_model_body w)) = trace w ++ new /\
             filter is_inference new = []).
  { destruct (fs w model_path) as [mb |] eqn:Hm.
    - destruct (fs w scaler_path) as [sb |] eqn:Hs.
      + destruct (keras_load_model mb) as [model |] eqn:Hk.
        * destruct (joblib_load sb) as [scaler |] eqn:Hj.
          -- rewrite (load_model_body_ok w mb sb model scaler Hm Hk Hs Hj).
             eexists. split; reflexivity.
          -- destruct (load_model_body_corrupt_scaler w mb sb model Hm Hs Hk Hj)
               as (m & ->).
             exists [call_load_model model_path; call_joblib_load scaler_path; st_error m].
             cbn. rewrite <- !app_assoc. auto.
        * destruct (load_model_body_corrupt_model w mb sb Hm Hs Hk) as (m & ->).
          exists [call_load_model model_path; st_error m].
          cbn. rewrite <- !app_assoc. auto.
      + destruct (load_model_body_missing_scaler w mb Hm Hs) as (m1 & m2 & ->).
        eexists. split; reflexivity.
    - destruct (load_model_body_missing_model w Hm) as (m1 & m2 & ->).
      eexists. split; reflexivity. }
  destruct Hb as (new & Ht & Hf). exists new.
  destruct (load_model_body w) as [[loaded | f | ] w1]; cbn [snd trace] in *; auto.
Qed.

(** X13. What one run asks of the scaler and of the model, by outcome.  A
    percentage comes with exactly one call of [transform], on the row of the
    profile, followed by exactly one call of [predict], on what [transform]
    returned, and is the float product of its result by 100.  When [predict]
    raises, both calls were made and there is no percentage.  A shape
    mismatch comes with the call of [transform] alone.  A failure of the
    loader comes with neither.  Earlier events are kept as they are. *)
Theorem inference_calls_by_outcome (p : StudentProfile) (w : World) :
  let row := feature_row (gre p) (toefl p) (rating p) (sop p) (lor p) (cgpa p)
               (research p) in
  exists new,
    trace (snd (evaluate p w)) = trace w ++ new /\
    match fst (evaluate p w) with
    | Ok (percentage, banner) =>
        exists model scaler scaled raw,
          fst (load_model w) = Ok (model, scaler) /\
          transform scaler row = Some scaled /\
          predict model scaled = Some raw /\
          filter is_inference new = [call_transform row; call_predict scaled] /\
          percentage = fl (raw * 100) /\
          banner = classify percentage
    | PredictRaised =>
        exists model scaler scaled,
          fst (load_model w) = Ok (model, scaler) /\
          transform scaler row = Some scaled /\
          predict model scaled = None /\
          filter is_inference new = [call_transform row; call_predict scaled]
    | Halt ScalerShapeMismatch => filter is_inference new = [call_transform row]
    | Halt _ => filter is_inference new = []
    end.
Proof.
  intros row.
  destruct (load_model_events w) as (ev & Ht & Hf).
  assert (Hcause := load_model_body_cases w).
  assert (Hret := load_model_returns w).
  destruct (load_model w) as [[[model scaler] | f | ] w1] eqn:Hload; cbn [fst snd] in *;
    [ | | contradiction Hret; reflexivity].
  - rewrite (evaluate_loaded p w w1 model scaler Hload). fold row.
    destruct (transform scaler row) as [scaled |] eqn:Htr; unfold row in Htr.
    + destruct (predict model scaled) as [raw |] eqn:Hp.
      * rewrite (predict_admission_ok _ _ _ _ _ _ _ model scaler scaled raw _ Htr Hp).
        cbn [fst snd trace shown]. fold row.
        exists (ev ++ [st_success success_msg; call_transform row; call_predict scaled]).
        split; [rewrite Ht, <- !app_assoc; reflexivity | ].
        exists model, scaler, scaled, raw.
        rewrite filter_app, Hf. cbn. auto 7.
      * rewrite (predict_admission_predict_raises _ _ _ _ _ _ _ model scaler scaled _
                   Htr Hp).
        cbn [fst snd trace shown]. fold row.
        exists (ev ++ [st_success success_msg; call_transform row; call_predict scaled]).
        split; [rewrite Ht, <- !app_assoc; reflexivity | ].
        exists model, scaler, scaled.
        rewrite filter_app, Hf. cbn. auto.
    + rewrite (predict_admission_raises _ _ _ _ _ _ _ model scaler _ Htr).
      cbn [fst snd trace shown]. fold row.
      exists (ev ++ [st_success success_msg; call_transform row]).
      split; [rewrite Ht, <- !app_assoc; reflexivity | ].
      rewrite filter_app, Hf. reflexivity.
  - rewrite (evaluate_not_loaded p w w1 f Hload). cbn [fst snd].
    exists ev. split; [exact Ht | ].
    destruct (load_model_halt_inv w w1 f Hload) as (_ & _ & _ & Hb).
    rewrite Hb in Hcause. cbn [fst] in Hcause.
    destruct f; [exact Hf | exact Hf | contradiction].
Qed.

End RunsAndEvents.

(** ** Further runs on the sample artifacts *)

Lemma corrupt_artifact_halts_witness :
  let w := Sample.fresh (Some Sample.Junk) (Some (Sample.Pkl Sample.scaler7)) in
  keras_load_model Sample.Junk = None /\
  fst (evaluate Sample.profile w) = Halt ArtifactCorrupt /\
  cache (snd (evaluate Sample.profile w)) = None /\
  List.length (trace (snd (evaluate Sample.profile w))) = 2%nat.
Proof.
  intros w.
  destruct (corrupt_artifact_halts Sample.profile w Sample.Junk
              (Sample.Pkl Sample.scaler7) eq_refl eq_refl eq_refl)
    as (_ & _ & H).
  destruct (H (or_introl eq_refl)) as (Ho & Hc & _).
  split; [reflexivity | split; [exact Ho | split; [exact Hc | reflexivity]]].
Defined.

Lemma session_keeps_cached_pair_witness :
  let loaded := snd (load_model (Sample.fresh (Some (Sample.H5 Sample.model))
                                   (Some (Sample.Pkl Sample.scaler7)))) in
  let weaker := mkProfile 300 90 2 3.0 3.0 7.5 0 in
  let runs := [ (Sample.disk None None, Sample.profile);
                (Sample.disk (Some Sample.Junk) None, weaker) ] in
  cache loaded = Some (Sample.model, Sample.scaler7) /\
  fst (session runs loaded)
  = [ estimate Sample.profile (Ok (Sample.model, Sample.scaler7));
      estimate weaker (Ok (Sample.model, Sample.scaler7)) ] /\
  cache (snd (session runs loaded)) = Some (Sample.model, Sample.scaler7) /\
  filter is_deserialisation (trace (snd (session runs loaded)))
  = [call_load_model model_path; call_joblib_load scaler_path].
Proof.
  intros loaded weaker runs.
  destruct (session_keeps_cached_pair runs loaded (Sample.model, Sample.scaler7) eq_refl)
    as (Ho & Hc & Ht).
  split; [reflexivity | split; [exact Ho | split; [exact Hc | ]]].
  rewrite Ht. reflexivity.
Defined.

Lemma failed_load_is_retried_witness :
  let absent := Sample.fresh None (Some (Sample.Pkl Sample.scaler7)) in
  let repaired := Sample.disk (Some (Sample.H5 Sample.model))
                    (Some (Sample.Pkl Sample.scaler7)) in
  fst (evaluate Sample.profile absent) = Halt (MissingArtifact model_path) /\
  fst (rerun repaired Sample.profile (snd (evaluate Sample.profile absent)))
  = estimate Sample.profile (Ok (Sample.model, Sample.scaler7)) /\
  cache (snd (rerun repaired Sample.profile (snd (evaluate Sample.profile absent))))
  = Some (Sample.model, Sample.scaler7).
Proof.
  intros absent repaired. split; [reflexivity | ].
  apply (failed_load_is_retried Sample.profile Sample.profile absent
           (snd (evaluate Sample.profile absent)) (MissingArtifact model_path)
           repaired (Sample.H5 Sample.model) (Sample.Pkl Sample.scaler7)).
  - reflexivity.
  - discriminate.
  - reflexivity.
  - reflexivity.
  - reflexivity.
  - reflexivity.
Defined.
